(** * Simulation core of the agent-centric meta-swap API

    A shallow embedding of the simulation services
    (time-control.service.ts, historical.service.ts, scenarios.service.ts,
    simulation.service.ts) and the properties their specification states.

    Modelling conventions.
    - A JavaScript number is an exact real (or rational) number or [NaN];
      binary64 rounding and overflow are idealised away.  Where the code
      can only see finite rationals (the virtual clock) the model is
      executable over [Q] and [Z]; the scenario formulas use [sin], [exp]
      and [PI] over [R].
    - A [Date] is its time value in milliseconds since the epoch, or an
      Invalid Date.  An ISO timestamp stored in a record is represented by
      the time value it denotes ([toISOString] and [new Date] are inverse
      on valid dates).  The range limit of time values is not modelled.
    - [Date.now()] and [Math.random()] are inputs: the wall clock is an
      argument of every operation that reads it, the random source is a
      stream [nat -> R] consumed through a counter.
    - A thrown [Error] is a value of [result]; a mutation made before the
      throw stays in the store. *)

From Stdlib Require Import ZArith QArith Qminmax Qround Reals Qreals Lra Lia.
From Stdlib Require Import Ascii String List DecimalString.
From stdpp Require Import base option gmap strings list.

Local Open Scope Z_scope.

(** ** Platform: strings, 32-bit integers, dates *)

Module JS.

(** [ToInt32]: wrap-around into the signed 32-bit range. *)
Definition toInt32 (z : Z) : Z := (z + 2^31) mod 2^32 - 2^31.

(** [a << n] on 32-bit integers. *)
Definition shl32 (a n : Z) : Z := toInt32 (Z.shiftl (toInt32 a) n).

(** [a & b] on 32-bit integers. *)
Definition and32 (a b : Z) : Z := toInt32 (Z.land (toInt32 a) (toInt32 b)).

(** [str.charCodeAt(i)] for each position, in order (ASCII strings). *)
Fixpoint charCodes (s : string) : list Z :=
  match s with
  | EmptyString => []
  | String c s' => Z.of_N (N_of_ascii c) :: charCodes s'
  end.

Definition lower (c : ascii) : ascii :=
  let n := N_of_ascii c in
  if ((65 <=? n) && (n <=? 90))%N then ascii_of_N (n + 32) else c.

(** [s.toLowerCase()] *)
Fixpoint toLowerCase (s : string) : string :=
  match s with
  | EmptyString => EmptyString
  | String c s' => String (lower c) (toLowerCase s')
  end.

(** [s.includes(sub)] *)
Fixpoint includes (s sub : string) : bool :=
  String.prefix sub s ||
  match s with
  | EmptyString => false
  | String _ s' => includes s' sub
  end.

(** A [Date] object. *)
Inductive Date := InvalidDate | TimeValue (t : Z).

(** What [setTime] keeps of a rational number of milliseconds: the
    integer part, rounded toward zero. *)
Definition timeClip (q : Q) : Z := Z.quot (Qnum q) (Zpos (Qden q)).

(** A number received from a caller: finite, NaN or an infinity. *)
Inductive number := NaN | PosInfinity | NegInfinity | Finite (q : Q).

(** Decimal digits of [n], least significant last, on [width] places. *)
Fixpoint digits (width : nat) (n : Z) (acc : string) : string :=
  match width with
  | O => acc
  | S w => digits w (n / 10) (String (ascii_of_N (48 + Z.to_N (n mod 10))) acc)
  end.

Definition pad (width : nat) (n : Z) : string := digits width n "".

(** Year, month and day of the proleptic Gregorian calendar for a day
    number counted from 1970-01-01. *)
Definition civilFromDays (days : Z) : Z * Z * Z :=
  let z := days + 719468 in
  let era := z / 146097 in
  let doe := z - era * 146097 in
  let yoe := (doe - doe / 1460 + doe / 36524 - doe / 146096) / 365 in
  let doy := doe - (365 * yoe + yoe / 4 - yoe / 100) in
  let mp := (5 * doy + 2) / 153 in
  let d := doy - (153 * mp + 2) / 5 + 1 in
  let m := if mp <? 10 then mp + 3 else mp - 9 in
  let y := yoe + era * 400 + (if m <=? 2 then 1 else 0) in
  (y, m, d).

Definition yearString (y : Z) : string :=
  if (0 <=? y) && (y <=? 9999) then pad 4 y
  else (if y <? 0 then "-" else "+") +:+ pad 6 (Z.abs y).

(** [d.toISOString()]; [None] is the RangeError of an Invalid Date. *)
Definition toISOString (d : Date) : option string :=
  match d with
  | InvalidDate => None
  | TimeValue t =>
      let '(y, m, dd) := civilFromDays (t / 86400000) in
      let ms := t mod 86400000 in
      Some (yearString y +:+ "-" +:+ pad 2 m +:+ "-" +:+ pad 2 dd +:+ "T"
            +:+ pad 2 (ms / 3600000) +:+ ":" +:+ pad 2 (ms / 60000 mod 60) +:+ ":"
            +:+ pad 2 (ms / 1000 mod 60) +:+ "." +:+ pad 3 (ms mod 1000) +:+ "Z")
  end.

(** [String(n)] / a template literal, for an integer [n]. *)
Definition decimal (n : Z) : string := NilZero.string_of_int (Z.to_int n).

End JS.

(** ** time-control.service.ts *)

Module TimeControlService.

Inductive Status := running | paused.

Inductive Error :=
| SimulationNotFound (simulationId : string)   (* 'Simulation not found: id' *)
| TimeScaleMustBePositive                      (* 'Time scale must be a positive number' *)
| InvalidTimestamp                             (* 'Invalid timestamp' *)
| RangeErrorInvalidTime.                       (* toISOString of an Invalid Date *)

Inductive result (A : Type) := Ok (a : A) | Throw (e : Error).
Arguments Ok {A} a.
Arguments Throw {A} e.

Module TimeControlData.
Record t := mk {
  simulationId : string;
  startTime : Z;
  currentTime : Z;
  timeScale : Q;
  status : Status;
  lastUpdateRealTime : Z;
}.
End TimeControlData.

Module TimeInfoDto.
Record t := mk {
  simulationId : string;
  currentTime : Z;
  timeScale : Q;
  status : Status;
  realTimeFactor : Q;
}.
End TimeInfoDto.

Module TimeControlConfigDto.
Record t := mk {
  startTime : Z;
  currentTime : Z;
  timeScale : Q;
  status : Status;
}.
End TimeControlConfigDto.

Module TimeControlInitParamsDto.
Record t := mk {
  simulationId : string;
  startTime : option JS.Date;       (* absent or empty string: None *)
  timeScale : option JS.number;
}.
End TimeControlInitParamsDto.

Import TimeControlData.

(** The [timeControlStore] map of the service. *)
Abbreviation Store := (gmap string TimeControlData.t).

Definition minTimeScale : Q := 1 # 10.
Definition maxTimeScale : Q := 1000.

Definition validateTimeScale (timeScale : JS.number) : result Q :=
  match timeScale with
  | JS.NaN => Throw TimeScaleMustBePositive
  | JS.NegInfinity => Throw TimeScaleMustBePositive
  | JS.PosInfinity => Ok (Qmax minTimeScale maxTimeScale)
  | JS.Finite q =>
      if Qle_bool q 0 then Throw TimeScaleMustBePositive
      else Ok (Qmax minTimeScale (Qmin maxTimeScale q))
  end.

Definition calculateRealTimeFactor (d : TimeControlData.t) : Q :=
  match status d with running => timeScale d | paused => 0 end.

Definition getTimeControlData (simulationId : string) (store : Store)
  : result TimeControlData.t :=
  match store !! simulationId with
  | Some d => Ok d
  | None => Throw (SimulationNotFound simulationId)
  end.

(** [updateCurrentTime], on the record itself; [now] is [Date.now()]. *)
Definition updateCurrentTime (now : Z) (d : TimeControlData.t) : TimeControlData.t :=
  let elapsedRealMs := now - lastUpdateRealTime d in
  let elapsedSimMs := (inject_Z elapsedRealMs * timeScale d)%Q in
  let currentTime' := JS.timeClip (inject_Z (currentTime d) + elapsedSimMs)%Q in
  mk (simulationId d) (startTime d) currentTime' (timeScale d) (status d) now.

Definition timeInfo (simulationId : string) (d : TimeControlData.t) : TimeInfoDto.t :=
  TimeInfoDto.mk simulationId (currentTime d) (timeScale d) (status d)
                 (calculateRealTimeFactor d).

(** The guarded call shared by several operations:
    [if (status === 'running') this.updateCurrentTime(data)]. *)
Definition syncIfRunning (now : Z) (d : TimeControlData.t) : TimeControlData.t :=
  match status d with
  | running => updateCurrentTime now d
  | paused => d
  end.

Definition getCurrentTime (now : Z) (simulationId : string) (store : Store)
  : result TimeInfoDto.t * Store :=
  match getTimeControlData simulationId store with
  | Throw e => (Throw e, store)
  | Ok d =>
      let d1 := syncIfRunning now d in
      (Ok (timeInfo simulationId d1), <[simulationId := d1]> store)
  end.

(** [now] is read by [updateCurrentTime], [now'] by the later
    [Date.now()] of the method body. *)
Definition setTimeScale (now now' : Z) (simulationId : string)
    (timeScale : JS.number) (store : Store) : result TimeInfoDto.t * Store :=
  match getTimeControlData simulationId store with
  | Throw e => (Throw e, store)
  | Ok d =>
      let d1 := syncIfRunning now d in
      match validateTimeScale timeScale with
      | Throw e => (Throw e, <[simulationId := d1]> store)
      | Ok s =>
          let d2 := mk (TimeControlData.simulationId d1) (startTime d1)
                       (currentTime d1) s (status d1) now' in
          (Ok (timeInfo simulationId d2), <[simulationId := d2]> store)
      end
  end.

Definition pause (now : Z) (simulationId : string) (store : Store)
  : result TimeInfoDto.t * Store :=
  match getTimeControlData simulationId store with
  | Throw e => (Throw e, store)
  | Ok d =>
      let d1 := syncIfRunning now d in
      let d2 := mk (TimeControlData.simulationId d1) (startTime d1)
                   (currentTime d1) (timeScale d1) paused (lastUpdateRealTime d1) in
      (Ok (timeInfo simulationId d2), <[simulationId := d2]> store)
  end.

Definition resume (now : Z) (simulationId : string) (store : Store)
  : result TimeInfoDto.t * Store :=
  match getTimeControlData simulationId store with
  | Throw e => (Throw e, store)
  | Ok d =>
      let d1 := mk (TimeControlData.simulationId d) (startTime d)
                   (currentTime d) (timeScale d) running now in
      (Ok (timeInfo simulationId d1), <[simulationId := d1]> store)
  end.

Definition reset (simulationId : string) (store : Store)
  : result TimeInfoDto.t * Store :=
  match getTimeControlData simulationId store with
  | Throw e => (Throw e, store)
  | Ok d =>
      let d1 := mk (TimeControlData.simulationId d) (startTime d)
                   (startTime d) (timeScale d) paused (lastUpdateRealTime d) in
      (Ok (timeInfo simulationId d1), <[simulationId := d1]> store)
  end.

(** [timestamp] is [new Date(timestamp)] of the string received. *)
Definition setCurrentTime (now : Z) (simulationId : string)
    (timestamp : JS.Date) (store : Store) : result TimeInfoDto.t * Store :=
  match getTimeControlData simulationId store with
  | Throw e => (Throw e, store)
  | Ok d =>
      match timestamp with
      | JS.InvalidDate => (Throw InvalidTimestamp, store)
      | JS.TimeValue newTime =>
          let d1 := mk (TimeControlData.simulationId d) (startTime d)
                       newTime (timeScale d) (status d) now in
          (Ok (timeInfo simulationId d1), <[simulationId := d1]> store)
      end
  end.

(** [params.timeScale || 1.0] *)
Definition timeScaleOrDefault (o : option JS.number) : JS.number :=
  match o with
  | None => JS.Finite 1
  | Some JS.NaN => JS.Finite 1
  | Some (JS.Finite q) => if Qeq_bool q 0 then JS.Finite 1 else JS.Finite q
  | Some n => n
  end.

(** [now] is read by [new Date()] when no start time is given, [now']
    by [Date.now()]. *)
Definition initialize (now now' : Z) (params : TimeControlInitParamsDto.t)
    (store : Store) : result TimeControlConfigDto.t * Store :=
  let startTime :=
    match TimeControlInitParamsDto.startTime params with
    | Some d => d
    | None => JS.TimeValue now
    end in
  match validateTimeScale
          (timeScaleOrDefault (TimeControlInitParamsDto.timeScale params)) with
  | Throw e => (Throw e, store)
  | Ok s =>
      match startTime with
      | JS.InvalidDate => (Throw RangeErrorInvalidTime, store)
      | JS.TimeValue t0 =>
          let d := mk (TimeControlInitParamsDto.simulationId params)
                      t0 t0 s running now' in
          (Ok (TimeControlConfigDto.mk t0 t0 s running),
           <[TimeControlInitParamsDto.simulationId params := d]> store)
      end
  end.

End TimeControlService.

(** ** historical.service.ts *)

Module HistoricalService.

Inductive Error :=
| RangeErrorInvalidTime.   (* toISOString of an Invalid Date *)

Module TokenData.
Record t := mk {
  price : Q;
  volume : Z;
  marketCap : R;
  supply : Z;
}.
End TokenData.

Module HistoricalMarketDataDto.
Record t := mk {
  timestamp : string;
  tokens : gmap string TokenData.t;
  totalVolume : Z;
  volatilityIndex : R;
}.
End HistoricalMarketDataDto.

Module HistoricalDataQueryDto.
Record t := mk {
  timestamp : JS.Date;      (* new Date(params.timestamp) *)
  tokens : list string;
}.
End HistoricalDataQueryDto.

(** One round of the loop of [simpleHash]. *)
Definition hashStep (hash char : Z) : Z :=
  let hash := JS.shl32 hash 5 - hash + char in
  JS.and32 hash hash.

Definition simpleHash (str : string) : Z :=
  Z.abs (fold_left hashStep (JS.charCodes str) 0).

(** The four price bands, from the token name and the hash. *)
Definition priceBand (token : string) (hash : Z) : Q :=
  let lc := JS.toLowerCase token in
  if JS.includes lc "btc" then inject_Z (30000 + Z.rem hash 20000)
  else if JS.includes lc "eth" then inject_Z (1500 + Z.rem hash 2000)
  else if JS.includes lc "usdc" || JS.includes lc "usdt"
    then ((98 # 100) + inject_Z (Z.rem hash 5) / 100)%Q
  else ((1 # 10) + inject_Z (Z.rem hash 1000) / 10)%Q.

Definition getBasePriceForToken (token : string) (timestamp : JS.Date)
  : option Q :=
  match JS.toISOString timestamp with
  | None => None
  | Some iso => Some (priceBand token (simpleHash (token +:+ iso)))
  end.

(** [Math.floor(Math.random() * n)] at draw [k] of the stream. *)
Definition randomBelow (rnd : nat -> R) (k : nat) (n : Z) : Z :=
  Zfloor (rnd k * IZR n).

(** The loop over [params.tokens]; [k] counts the draws made so far. *)
Fixpoint tokenLoop (rnd : nat -> R) (timestamp : JS.Date) (tokens : list string)
    (k : nat) (acc : gmap string TokenData.t) : gmap string TokenData.t * nat :=
  match tokens with
  | [] => (acc, k)
  | token :: rest =>
      match getBasePriceForToken token timestamp with
      | None => (acc, k)
      | Some basePrice =>
          let entry :=
            TokenData.mk basePrice
              (randomBelow rnd k 10000000)
              (Q2R basePrice * IZR (randomBelow rnd (k + 1) 1000000000))%R
              (randomBelow rnd (k + 2) 1000000000) in
          tokenLoop rnd timestamp rest (k + 3)%nat (<[token := entry]> acc)
      end
  end.

Definition getHistoricalData (rnd : nat -> R) (k : nat)
    (params : HistoricalDataQueryDto.t)
  : (Error + HistoricalMarketDataDto.t) * nat :=
  let timestamp := HistoricalDataQueryDto.timestamp params in
  match JS.toISOString timestamp with
  | None => (inl RangeErrorInvalidTime, k)
  | Some iso =>
      let totalVolume := randomBelow rnd k 1000000000 in
      let volatilityIndex := (rnd (k + 1)%nat * 100)%R in
      let '(tokens, k') :=
        tokenLoop rnd timestamp (HistoricalDataQueryDto.tokens params)
                  (k + 2)%nat ∅ in
      (inr (HistoricalMarketDataDto.mk iso tokens totalVolume volatilityIndex), k')
  end.

(** *** Initialisation *)

Inductive InitError :=
| PeriodRequired                 (* 'Period is required' *)
| PeriodStartEndRequired         (* 'Period must have start and end dates' *)
| InvalidStartDate               (* 'Invalid start date' *)
| InvalidEndDate                 (* 'Invalid end date' *)
| StartNotBeforeEnd              (* 'Start date must be before end date' *)
| TokenRequired.                 (* 'At least one token is required' *)

(** A period: each bound is absent (or the empty string), or the
    [Date] its string parses to. *)
Module Period.
Record t := mk {
  start : option JS.Date;
  end_ : option JS.Date;
}.
End Period.

Module HistoricalInitParamsDto.
Record t := mk {
  period : option Period.t;
  tokens : list string;
  simulationId : string;
}.
End HistoricalInitParamsDto.

Module HistoricalDataSourceDto.
Record t := mk {
  period : option Period.t;
  tokens : list string;
  dataPoints : option Z;          (* None is NaN *)
  resolution : string;
  status : string;
  simulationId : string;
  dataSource : string;
}.
End HistoricalDataSourceDto.

Definition validatePeriod (period : option Period.t) : InitError + unit :=
  match period with
  | None => inl PeriodRequired
  | Some p =>
      match Period.start p, Period.end_ p with
      | Some start, Some end_ =>
          match start with
          | JS.InvalidDate => inl InvalidStartDate
          | JS.TimeValue s =>
              match end_ with
              | JS.InvalidDate => inl InvalidEndDate
              | JS.TimeValue e =>
                  if s >=? e then inl StartNotBeforeEnd else inr tt
              end
          end
      | _, _ => inl PeriodStartEndRequired
      end
  end.

Definition validateTokens (tokens : list string) : InitError + unit :=
  match tokens with
  | [] => inl TokenRequired
  | _ :: _ => inr tt
  end.

(** [Math.ceil] of a quotient of integers, the divisor above zero. *)
Definition ceilDiv (a b : Z) : Z := - ((- a) / b).

(** [Math.ceil((end - start) / (1000 * 60 * 60))]; NaN when a bound
    is missing or does not parse. *)
Definition estimateDataPoints (period : option Period.t) : option Z :=
  match period with
  | Some (Period.mk (Some (JS.TimeValue s)) (Some (JS.TimeValue e))) =>
      Some (ceilDiv (e - s) (1000 * 60 * 60))
  | _ => None
  end.

Definition initialize (params : HistoricalInitParamsDto.t)
  : InitError + HistoricalDataSourceDto.t :=
  match validatePeriod (HistoricalInitParamsDto.period params) with
  | inl e => inl e
  | inr _ =>
      match validateTokens (HistoricalInitParamsDto.tokens params) with
      | inl e => inl e
      | inr _ =>
          inr (HistoricalDataSourceDto.mk
                 (HistoricalInitParamsDto.period params)
                 (HistoricalInitParamsDto.tokens params)
                 (estimateDataPoints (HistoricalInitParamsDto.period params))
                 "1h" "ready"
                 (HistoricalInitParamsDto.simulationId params)
                 "synthetic")
      end
  end.

End HistoricalService.

(** ** Numbers of the scenario formulas

    A real number or NaN ([None]).  The arithmetic of NaN is the one of
    JavaScript: every operation on NaN gives NaN, every comparison with
    NaN is false.  The formulas never divide by a number that can be
    zero. *)

Module Num.

Definition t := option R.

Definition NaN : t := None.
Definition fin (r : R) : t := Some r.

Definition lift1 (f : R -> R) (a : t) : t :=
  match a with Some x => Some (f x) | None => None end.

Definition lift2 (f : R -> R -> R) (a b : t) : t :=
  match a, b with Some x, Some y => Some (f x y) | _, _ => None end.

Definition add := lift2 Rplus.
Definition sub := lift2 Rminus.
Definition mul := lift2 Rmult.
Definition div := lift2 Rdiv.
Definition neg := lift1 Ropp.
Definition min := lift2 Rmin.
Definition max := lift2 Rmax.
Definition sin := lift1 Rtrigo_def.sin.
Definition exp := lift1 Rtrigo_def.exp.
Definition sqr := lift1 (fun x => x * x)%R.
Definition floor := lift1 (fun x => IZR (Zfloor x)).

(** [a < b] *)
Definition ltb (a b : t) : bool :=
  match a, b with
  | Some x, Some y => if Rlt_dec x y then true else false
  | _, _ => false
  end.

(** [field || d] for an optional numeric field: the default replaces
    [undefined] and [0]. *)
Definition orDefault (field : option R) (d : R) : t :=
  match field with
  | None => Some d
  | Some x => if Req_dec_T x 0 then Some d else Some x
  end.

(** A field read without a default: [undefined] behaves as NaN in
    arithmetic. *)
Definition ofField (field : option R) : t := field.

End Num.

Coercion Num.fin : R >-> Num.t.

Declare Scope num_scope.
Delimit Scope num_scope with num.
Bind Scope num_scope with Num.t.
Infix "+" := Num.add : num_scope.
Infix "-" := Num.sub : num_scope.
Infix "*" := Num.mul : num_scope.
Infix "/" := Num.div : num_scope.
Notation "- a" := (Num.neg a) : num_scope.
Infix "<?" := Num.ltb : num_scope.

(** ** scenarios.service.ts *)

Module ScenariosService.

Local Open Scope R_scope.
Local Open Scope num_scope.

(** The labels of the [switch] statements. *)
Inductive Scenario :=
| bull_market | bear_market | market_crash | sideways_market
| high_volatility | liquidity_crisis | flash_crash.

Definition validScenarios : list string :=
  ["bull_market"; "bear_market"; "market_crash"; "sideways_market";
   "high_volatility"; "liquidity_crisis"; "flash_crash"]%string.

(** The [case] a scenario type selects; [None] is [default]. *)
Definition scenarioOf (scenarioType : string) : option Scenario :=
  if String.eqb scenarioType "bull_market" then Some bull_market
  else if String.eqb scenarioType "bear_market" then Some bear_market
  else if String.eqb scenarioType "market_crash" then Some market_crash
  else if String.eqb scenarioType "sideways_market" then Some sideways_market
  else if String.eqb scenarioType "high_volatility" then Some high_volatility
  else if String.eqb scenarioType "liquidity_crisis" then Some liquidity_crisis
  else if String.eqb scenarioType "flash_crash" then Some flash_crash
  else None.

(** Property names every object literal inherits from
    [Object.prototype]: [configs[name]] is defined (and truthy) for
    them although [configs] has no such key of its own. *)
Definition inheritedProperties : list string :=
  ["constructor"; "__proto__"; "hasOwnProperty"; "isPrototypeOf";
   "propertyIsEnumerable"; "toLocaleString"; "toString"; "valueOf";
   "__defineGetter__"; "__defineSetter__"; "__lookupGetter__";
   "__lookupSetter__"]%string.

Inductive Error :=
| InvalidScenarioType (scenarioType : string).

(** The [parameters] object: each field is a number or absent. *)
Module Parameters.
Record t := mk {
  duration : option R;
  intensity : option R;
  recovery_speed : option R;
  range_width : option R;
  direction_bias : option R;
}.
(** [{}] *)
Definition empty : t := mk None None None None None.
End Parameters.

Module Config.
Record t := mk {
  description : string;
  duration : Num.t;
  difficulty : string;
}.
End Config.

(** What [configs[scenarioType] || configs['bull_market']] evaluates
    to: one of the seven configuration objects, or the inherited
    property found under that name. *)
Inductive ConfigValue :=
| ConfigObject (c : Config.t)
| Inherited (name : string).

(** [scenarioConfig.duration]; [undefined] on an inherited property,
    NaN once multiplied. *)
Definition durationOf (v : ConfigValue) : Num.t :=
  match v with
  | ConfigObject c => Config.duration c
  | Inherited _ => Num.NaN
  end.

(** [scenarioConfig.description] *)
Definition descriptionOf (v : ConfigValue) : option string :=
  match v with
  | ConfigObject c => Some (Config.description c)
  | Inherited _ => None
  end.

(** [scenarioConfig.difficulty] *)
Definition difficultyOf (v : ConfigValue) : option string :=
  match v with
  | ConfigObject c => Some (Config.difficulty c)
  | Inherited _ => None
  end.

Module OrderLevel.
Record t := mk { price : Num.t; amount : Num.t }.
End OrderLevel.

Module MarketDepth.
Record t := mk { asks : list OrderLevel.t; bids : list OrderLevel.t }.
End MarketDepth.

Module TokenData.
Record t := mk {
  price : Num.t;
  priceChange24h : Num.t;
  volume : Num.t;
  marketDepth : MarketDepth.t;
}.
End TokenData.

Module MarketMetrics.
Record t := mk {
  volatilityIndex : Num.t;
  liquidityIndex : Num.t;
  sentimentIndex : Num.t;
}.
End MarketMetrics.

Module ScenarioMarketDataDto.
Record t := mk {
  timestamp : Z;
  progress : Num.t;
  tokens : gmap string TokenData.t;
  marketMetrics : MarketMetrics.t;
}.
End ScenarioMarketDataDto.

Module ScenarioDataQueryDto.
Record t := mk {
  scenarioType : string;
  parameters : option Parameters.t;
  startTime : JS.Date;        (* new Date(params.startTime) *)
  currentTime : JS.Date;      (* new Date(params.currentTime) *)
  tokens : list string;
}.
End ScenarioDataQueryDto.

Module ScenarioInitParamsDto.
Record t := mk {
  scenarioType : string;
  parameters : option Parameters.t;
  simulationId : string;
}.
End ScenarioInitParamsDto.

Module ScenarioDataSourceDto.
Record t := mk {
  scenarioType : string;
  parameters : Parameters.t;
  duration : Num.t;
  simulationId : string;
  description : option string;
  difficulty : option string;
}.
End ScenarioDataSourceDto.

Import Parameters.

(** The default value [{}] of an omitted [parameters] argument. *)
Definition orEmpty (parameters : option Parameters.t) : Parameters.t :=
  match parameters with Some p => p | None => Parameters.empty end.

(** [d.getTime()] *)
Definition getTime (d : JS.Date) : Num.t :=
  match d with
  | JS.InvalidDate => Num.NaN
  | JS.TimeValue t => Num.fin (IZR t)
  end.

Definition validateScenarioType (scenarioType : string) : Error + unit :=
  if bool_decide (scenarioType ∈ validScenarios) then inr tt
  else inl (InvalidScenarioType scenarioType).

(** The entries of [configs]. *)
Definition configs (sc : Scenario) (parameters : Parameters.t) : Config.t :=
  match sc with
  | bull_market =>
      Config.mk "Sustained upward price movement with low volatility"
        (Num.orDefault (duration parameters) (7 * 24 * 60 * 60)%R) "easy"
  | bear_market =>
      Config.mk "Sustained downward price movement with moderate volatility"
        (Num.orDefault (duration parameters) (14 * 24 * 60 * 60)%R) "medium"
  | market_crash =>
      Config.mk "Sudden sharp decline in prices with high volatility"
        (Num.fin (24 * 60 * 60)%R) "hard"
  | sideways_market =>
      Config.mk "Range-bound price movement with low volatility"
        (Num.orDefault (duration parameters) (30 * 24 * 60 * 60)%R) "medium"
  | high_volatility =>
      Config.mk "Erratic price movements with high volatility"
        (Num.orDefault (duration parameters) (3 * 24 * 60 * 60)%R) "hard"
  | liquidity_crisis =>
      Config.mk "Reduced market depth and wider spreads"
        (Num.orDefault (duration parameters) (2 * 24 * 60 * 60)%R) "expert"
  | flash_crash =>
      Config.mk "Extremely rapid price decline followed by recovery"
        (Num.fin (4 * 60 * 60)%R) "expert"
  end.

Definition getScenarioConfig (scenarioType : string) (parameters : Parameters.t)
  : ConfigValue :=
  match scenarioOf scenarioType with
  | Some sc => ConfigObject (configs sc parameters)
  | None =>
      if bool_decide (scenarioType ∈ inheritedProperties)
      then Inherited scenarioType
      else ConfigObject (configs bull_market parameters)
  end.

(** [simpleHash], the same loop as in the historical service. *)
Definition simpleHash (str : string) : Z :=
  Z.abs (fold_left HistoricalService.hashStep (JS.charCodes str) 0%Z).

Definition getBasePriceForToken (token : string) : Q :=
  let hash := simpleHash token in
  let lc := JS.toLowerCase token in
  if JS.includes lc "btc" then inject_Z (30000 + Z.rem hash 20000)
  else if JS.includes lc "eth" then inject_Z (1500 + Z.rem hash 2000)
  else if JS.includes lc "usdc" || JS.includes lc "usdt"
    then ((98 # 100) + inject_Z (Z.rem hash 5) / 100)%Q
  else ((1 # 10) + inject_Z (Z.rem hash 1000) / 10)%Q.

(** [const crashPoint = Math.min(1, progress / 0.2)] *)
Definition crashPoint (progress : Num.t) : Num.t :=
  Num.min 1 (progress / 0.2).

(** [progress < 0.1 ? 0 : progress < 0.3 ? (progress - 0.1) / 0.2 : 1] *)
Definition flashCrashPhase (progress : Num.t) : Num.t :=
  if progress <? 0.1 then 0
  else if progress <? 0.3 then (progress - 0.1) / 0.2
  else 1.

(** [progress < 0.3 ? 0 : (progress - 0.3) / 0.7] *)
Definition flashCrashRecovery (progress : Num.t) : Num.t :=
  if progress <? 0.3 then 0 else (progress - 0.3) / 0.7.

Definition getPriceModifier (scenarioType : string) (parameters : Parameters.t)
    (progress : Num.t) : Num.t :=
  let intensity := Num.orDefault (intensity parameters) 0.5 in
  match scenarioOf scenarioType with
  | Some bull_market => 1 + (intensity * progress)
  | Some bear_market => 1 - (intensity * 0.7 * progress)
  | Some market_crash =>
      let crashPoint := crashPoint progress in
      let recoveryPoint := Num.max 0 ((progress - 0.2) / 0.8) in
      let recoverySpeed := Num.orDefault (recovery_speed parameters) 0.3 in
      let crashEffect := intensity * (1 - Num.exp (-5 * crashPoint)) in
      let recoveryEffect := recoverySpeed * recoveryPoint in
      1 - crashEffect + (crashEffect * recoveryEffect)
  | Some sideways_market =>
      let rangeWidth := Num.orDefault (range_width parameters) 0.1 in
      1 + (rangeWidth * Num.sin (progress * 10 * PI))
  | Some high_volatility =>
      let directionBias := Num.orDefault (direction_bias parameters) 0 in
      1 + (intensity * 0.5 * Num.sin (progress * 20 * PI))
        + (directionBias * progress)
  | Some liquidity_crisis =>
      1 - (intensity * 0.3 * progress)
        + (intensity * 0.2 * Num.sin (progress * 15 * PI))
  | Some flash_crash =>
      let flashCrashPhase := flashCrashPhase progress in
      let flashCrashRecovery := flashCrashRecovery progress in
      let crashDepth := intensity * 0.7 in
      1 - (crashDepth * flashCrashPhase)
        + (crashDepth * Num.ofField (recovery_speed parameters) * flashCrashRecovery)
  | None => 1
  end.

Definition getVolumeModifier (scenarioType : string) (parameters : Parameters.t)
    (progress : Num.t) : Num.t :=
  let intensity := Num.orDefault (intensity parameters) 0.5 in
  match scenarioOf scenarioType with
  | Some bull_market => 1 + (intensity * progress)
  | Some bear_market => 1 + (intensity * progress * (1 - progress))
  | Some market_crash =>
      let crashPoint := crashPoint progress in
      1 + (intensity * 3 * Num.exp (-10 * (crashPoint - 0.5) * (crashPoint - 0.5)))
  | Some sideways_market =>
      0.7 + (0.5 * Num.sqr (Num.sin (progress * 10 * PI)))
  | Some high_volatility =>
      1.5 + (intensity * Num.sin (progress * 20 * PI))
  | Some liquidity_crisis => 1 - (intensity * 0.7 * progress)
  | Some flash_crash =>
      let flashCrashPhase := flashCrashPhase progress in
      let flashCrashRecovery := flashCrashRecovery progress in
      1 + (intensity * 4
           * Num.exp (-10 * (flashCrashPhase - 0.5) * (flashCrashPhase - 0.5)))
        + (intensity * 2
           * Num.exp (-10 * (flashCrashRecovery - 0.3) * (flashCrashRecovery - 0.3)))
  | None => 1
  end.

Definition getDepthModifier (scenarioType : string) (parameters : Parameters.t)
    (progress : Num.t) : Num.t :=
  let intensity := Num.orDefault (intensity parameters) 0.5 in
  match scenarioOf scenarioType with
  | Some bull_market => 1 + (intensity * 0.5 * progress)
  | Some bear_market => 1 - (intensity * 0.3 * progress)
  | Some market_crash =>
      let crashPoint := crashPoint progress in
      1 - (intensity * 0.8 * Num.exp (-5 * (crashPoint - 0.5) * (crashPoint - 0.5)))
  | Some sideways_market => 1 + (0.1 * Num.sin (progress * 10 * PI))
  | Some high_volatility => 1 + (intensity * 0.5 * Num.sin (progress * 15 * PI))
  | Some liquidity_crisis => 1 - (intensity * 0.8 * progress)
  | Some flash_crash =>
      let flashCrashPhase := flashCrashPhase progress in
      let flashCrashRecovery := flashCrashRecovery progress in
      1 - (intensity * 0.9 * flashCrashPhase) + (intensity * 0.7 * flashCrashRecovery)
  | None => 1
  end.

(** [random] is the value of the single [Math.random()] call made on
    every path. *)
Definition getPriceChange (random : R) (scenarioType : string)
    (parameters : Parameters.t) (progress : Num.t) : Num.t :=
  let intensity := Num.orDefault (intensity parameters) 0.5 in
  match scenarioOf scenarioType with
  | Some bull_market => intensity * 5 + (intensity * 5 * random)
  | Some bear_market => - intensity * 5 - (intensity * 5 * random)
  | Some market_crash =>
      let crashPoint := crashPoint progress in
      if crashPoint <? 0.8
      then - intensity * 20 - (intensity * 10 * random)
      else intensity * 5 + (intensity * 5 * random)
  | Some sideways_market => (random * 2 - 1) * intensity * 3
  | Some high_volatility => (random * 2 - 1) * intensity * 15
  | Some liquidity_crisis => - intensity * 8 - (intensity * 7 * random)
  | Some flash_crash =>
      let flashCrashPhase := flashCrashPhase progress in
      if flashCrashPhase <? 0.5
      then - intensity * 30 - (intensity * 20 * random)
      else intensity * 15 + (intensity * 10 * random)
  | None => (random * 2 - 1) * 5
  end.

Inductive OrderType := ask | bid.

(** Level [i] of an order book; [random] is its [Math.random()]. *)
Definition orderLevel (type : OrderType) (price : Num.t) (depthModifier : Num.t)
    (i : nat) (random : R) : OrderLevel.t :=
  let priceOffset :=
    match type with
    | ask => (INR i + 1) * 0.001 * price
    | bid => - (INR i + 1) * 0.001 * price
    end in
  let levelPrice := price + priceOffset in
  let amount := depthModifier * (1000 - (INR i * 150)) * (1 + 0.2 * random) in
  OrderLevel.mk levelPrice amount.

(** The [for] loop of [generateOrderBook] from index [i], with [n]
    rounds left; draw [k] of the stream is the next [Math.random()]. *)
Fixpoint orderBookLoop (rnd : nat -> R) (k : nat) (type : OrderType)
    (price : Num.t) (depthModifier : Num.t) (n i : nat) : list OrderLevel.t :=
  match n with
  | O => []
  | S n' =>
      orderLevel type price depthModifier i (rnd k)
      :: orderBookLoop rnd (S k) type price depthModifier n' (S i)
  end.

Definition generateOrderBook (rnd : nat -> R) (k : nat) (type : OrderType)
    (price : Num.t) (levels : nat) (depthModifier : Num.t) : list OrderLevel.t :=
  orderBookLoop rnd k type price depthModifier levels 0.

(** The [switch] that fills [marketData.marketMetrics]. *)
Definition marketMetricsOf (scenarioType : string) (progress : Num.t)
  : MarketMetrics.t :=
  match scenarioOf scenarioType with
  | Some bull_market | None =>
      MarketMetrics.mk (20 + (10 * Num.sin (progress * PI)))
                       (80 + (10 * Num.sin (progress * PI)))
                       (70 + (20 * progress))
  | Some bear_market =>
      MarketMetrics.mk (40 + (20 * Num.sin (progress * PI)))
                       (60 - (20 * progress))
                       (30 - (20 * progress))
  | Some market_crash =>
      let crashPoint := crashPoint progress in
      MarketMetrics.mk
        (50 + (50 * Num.exp (-5 * (crashPoint - 0.5) * (crashPoint - 0.5))))
        (80 - (60 * Num.exp (-5 * (crashPoint - 0.5) * (crashPoint - 0.5))))
        (50 - (40 * Num.exp (-5 * (crashPoint - 0.5) * (crashPoint - 0.5))))
  | Some sideways_market =>
      MarketMetrics.mk (30 + (10 * Num.sin (progress * 10 * PI)))
                       (70 + (10 * Num.sin (progress * 5 * PI)))
                       (50 + (10 * Num.sin (progress * 8 * PI)))
  | Some high_volatility =>
      MarketMetrics.mk (70 + (30 * Num.sin (progress * 20 * PI)))
                       (50 + (20 * Num.sin (progress * 15 * PI)))
                       (40 + (30 * Num.sin (progress * 10 * PI)))
  | Some liquidity_crisis =>
      MarketMetrics.mk (60 + (20 * progress))
                       (70 - (60 * progress))
                       (40 - (30 * progress))
  | Some flash_crash =>
      let flashCrashPhase := flashCrashPhase progress in
      let flashCrashRecovery := flashCrashRecovery progress in
      MarketMetrics.mk
        (30 + (70 * Num.exp (-10 * (flashCrashPhase - 0.5) * (flashCrashPhase - 0.5))))
        (80 - (70 * flashCrashPhase) + (50 * flashCrashRecovery))
        (60 - (50 * flashCrashPhase) + (30 * flashCrashRecovery))
  end.

(** The number of order-book levels asked for on each side. *)
Definition levels : nat := 5.

(** The body of the loop over [tokens] for one token; it makes
    [1 + 2 * levels] draws, starting at draw [k]. *)
Definition tokenData (rnd : nat -> R) (k : nat) (scenarioType : string)
    (parameters : Parameters.t) (progress : Num.t) (token : string) : TokenData.t :=
  let basePrice := getBasePriceForToken token in
  let priceModifier := getPriceModifier scenarioType parameters progress in
  let price := Q2R basePrice * priceModifier in
  let volumeModifier := getVolumeModifier scenarioType parameters progress in
  let depthModifier := getDepthModifier scenarioType parameters progress in
  TokenData.mk price
    (getPriceChange (rnd k) scenarioType parameters progress)
    (Num.floor (1000000 * volumeModifier))
    (MarketDepth.mk
       (generateOrderBook rnd (k + 1) ask price levels depthModifier)
       (generateOrderBook rnd (k + 1 + levels) bid price levels depthModifier)).

Fixpoint tokenLoop (rnd : nat -> R) (k : nat) (scenarioType : string)
    (parameters : Parameters.t) (progress : Num.t) (tokens : list string)
    (acc : gmap string TokenData.t) : gmap string TokenData.t * nat :=
  match tokens with
  | [] => (acc, k)
  | token :: rest =>
      tokenLoop rnd (k + 1 + 2 * levels) scenarioType parameters progress rest
        (<[token := tokenData rnd k scenarioType parameters progress token]> acc)
  end.

(** [now] is the wall clock read by [new Date()]. *)
Definition generateMarketData (now : Z) (rnd : nat -> R) (k : nat)
    (scenarioType : string) (parameters : Parameters.t) (progress : Num.t)
    (tokens : list string) : ScenarioMarketDataDto.t * nat :=
  let config := getScenarioConfig scenarioType parameters in
  let marketMetrics := marketMetricsOf scenarioType progress in
  let '(tokenMap, k') :=
    tokenLoop rnd k scenarioType parameters progress tokens ∅ in
  (ScenarioMarketDataDto.mk now progress tokenMap marketMetrics, k').

(** [Math.min(1, Math.max(0, (currentTime - startTime) / (duration * 1000)))] *)
Definition progressOf (startTime currentTime : JS.Date) (config : ConfigValue)
  : Num.t :=
  Num.min 1 (Num.max 0
    ((getTime currentTime - getTime startTime) / (durationOf config * 1000))).

Definition getScenarioData (now : Z) (rnd : nat -> R) (k : nat)
    (params : ScenarioDataQueryDto.t) : ScenarioMarketDataDto.t * nat :=
  let parameters := orEmpty (ScenarioDataQueryDto.parameters params) in
  let scenarioConfig :=
    getScenarioConfig (ScenarioDataQueryDto.scenarioType params) parameters in
  let progress :=
    progressOf (ScenarioDataQueryDto.startTime params)
               (ScenarioDataQueryDto.currentTime params) scenarioConfig in
  generateMarketData now rnd k (ScenarioDataQueryDto.scenarioType params)
    parameters progress (ScenarioDataQueryDto.tokens params).

Definition initialize (params : ScenarioInitParamsDto.t)
  : Error + ScenarioDataSourceDto.t :=
  match validateScenarioType (ScenarioInitParamsDto.scenarioType params) with
  | inl e => inl e
  | inr _ =>
      let parameters := orEmpty (ScenarioInitParamsDto.parameters params) in
      let scenarioConfig :=
        getScenarioConfig (ScenarioInitParamsDto.scenarioType params) parameters in
      inr (ScenarioDataSourceDto.mk
             (ScenarioInitParamsDto.scenarioType params) parameters
             (durationOf scenarioConfig)
             (ScenarioInitParamsDto.simulationId params)
             (descriptionOf scenarioConfig) (difficultyOf scenarioConfig))
  end.

(** *** The catalogue *)

Module ScenarioInfo.
Record t := mk {
  type : string;
  description : string;
  parameters : list string;
  difficulty : string;
}.
End ScenarioInfo.

Definition getAvailableScenarios : list ScenarioInfo.t :=
  [ ScenarioInfo.mk "bull_market"
      "Sustained upward price movement with low volatility"
      ["intensity"; "duration"] "easy";
    ScenarioInfo.mk "bear_market"
      "Sustained downward price movement with moderate volatility"
      ["intensity"; "duration"] "medium";
    ScenarioInfo.mk "market_crash"
      "Sudden sharp decline in prices with high volatility"
      ["intensity"; "recovery_speed"] "hard";
    ScenarioInfo.mk "sideways_market"
      "Range-bound price movement with low volatility"
      ["range_width"; "duration"] "medium";
    ScenarioInfo.mk "high_volatility"
      "Erratic price movements with high volatility"
      ["intensity"; "direction_bias"] "hard";
    ScenarioInfo.mk "liquidity_crisis"
      "Reduced market depth and wider spreads"
      ["intensity"; "duration"] "expert";
    ScenarioInfo.mk "flash_crash"
      "Extremely rapid price decline followed by recovery"
      ["intensity"; "recovery_speed"] "expert" ]%string.

End ScenariosService.

(** ** simulation.service.ts *)

Module SimulationService.

Import TimeControlService.

Inductive SimulationStatus := initialized | running | paused | completed.

Module MarketState.
Record t := mk {
  tokens : gmap string R;      (* symbol to price *)
  gasPrice : R;
  blockNumber : Z;
}.
End MarketState.

Module AgentState.
Record t := mk {
  balance : gmap string string;
  pendingActions : Z;
  completedActions : Z;
}.
End AgentState.

Module SimulationStateDto.
Record t := mk {
  simulationId : string;
  currentTime : Z;
  timeScale : Q;
  status : SimulationStatus;
  marketState : MarketState.t;
  agentState : AgentState.t;
}.
End SimulationStateDto.

(** [state.status = s] *)
Definition withStatus (s : SimulationStatus) (state : SimulationStateDto.t)
  : SimulationStateDto.t :=
  SimulationStateDto.mk (SimulationStateDto.simulationId state)
    (SimulationStateDto.currentTime state) (SimulationStateDto.timeScale state)
    s (SimulationStateDto.marketState state) (SimulationStateDto.agentState state).

(** The method has no failing path and reads no store; [now] is
    [new Date()], draws [k], [k+1], [k+2] are its [Math.random()]. *)
Definition getSimulationState (now : Z) (rnd : nat -> R) (k : nat)
    (simulationId : string) : SimulationStateDto.t :=
  SimulationStateDto.mk simulationId now 1 running
    (MarketState.mk
       (<["ETH" := (2500 + rnd k * 100)%R]>
          (<["BTC" := (40000 + rnd (k + 1)%nat * 1000)%R]>
             (<["USDC" := 1%R]> ∅)))
       (50 + rnd (k + 2)%nat * 20)%R
       12345678)
    (AgentState.mk (<["ETH" := "1.5"]> (<["USDC" := "5000"]> ∅)) 0 5).

Definition pauseSimulation (now now' : Z) (rnd : nat -> R) (k : nat)
    (simulationId : string) (store : Store)
  : result SimulationStateDto.t * Store :=
  match TimeControlService.pause now simulationId store with
  | (Throw e, store') => (Throw e, store')
  | (Ok _, store') =>
      (Ok (withStatus paused (getSimulationState now' rnd k simulationId)), store')
  end.



(** The method returns [{ success: true }] and touches nothing. *)
Definition terminateSimulation (simulationId : string) (store : Store)
  : bool * Store :=
  (true, store).

(** *** Initialisation *)

Inductive InitError :=
| ClockError (e : TimeControlService.Error)
| HistoricalError (e : HistoricalService.InitError)
| ScenarioError (e : ScenariosService.Error)
| UnsupportedSimulationType (type : string).   (* 'Unsupported simulation type: ...' *)

Inductive DataSource :=
| HistoricalSource (dto : HistoricalService.HistoricalDataSourceDto.t)
| ScenarioSource (dto : ScenariosService.ScenarioDataSourceDto.t).

Module SimulationInitParamsDto.
Record t := mk {
  type : string;
  agentId : string;
  tokens : list string;
  startTime : option JS.Date;      (* absent or empty string: None *)
  timeScale : option JS.number;
  description : option string;
  period : option HistoricalService.Period.t;
  scenarioType : option string;
  scenarioParameters : option ScenariosService.Parameters.t;
}.
End SimulationInitParamsDto.

Module SimulationEnvironmentDto.
Record t := mk {
  simulationId : string;
  type : string;
  status : SimulationStatus;
  timeControl : TimeControlConfigDto.t;
  dataSource : DataSource;
  createdAt : Z;
  createdBy : string;
  description : string;
}.
End SimulationEnvironmentDto.

(** [`sim_${Date.now()}_${Math.floor(Math.random() * 1000000)}`] *)
Definition generateSimulationId (now : Z) (random : R) : string :=
  "sim_" +:+ JS.decimal now +:+ "_" +:+ JS.decimal (Zfloor (random * 1000000)).

(** [params.description || ''] *)
Definition descriptionOrEmpty (o : option string) : string :=
  match o with Some d => d | None => "" end.

(** The data source of the requested type; an absent [scenarioType]
    reaches the validator as [undefined]. *)
Definition initializeDataSource (params : SimulationInitParamsDto.t)
    (simulationId : string) : InitError + DataSource :=
  if String.eqb (SimulationInitParamsDto.type params) "historical" then
    match HistoricalService.initialize
            (HistoricalService.HistoricalInitParamsDto.mk
               (SimulationInitParamsDto.period params)
               (SimulationInitParamsDto.tokens params) simulationId) with
    | inl e => inl (HistoricalError e)
    | inr dto => inr (HistoricalSource dto)
    end
  else if String.eqb (SimulationInitParamsDto.type params) "scenario" then
    match SimulationInitParamsDto.scenarioType params with
    | None => inl (ScenarioError (ScenariosService.InvalidScenarioType "undefined"))
    | Some scenarioType =>
        match ScenariosService.initialize
                (ScenariosService.ScenarioInitParamsDto.mk scenarioType
                   (SimulationInitParamsDto.scenarioParameters params)
                   simulationId) with
        | inl e => inl (ScenarioError e)
        | inr dto => inr (ScenarioSource dto)
        end
    end
  else inl (UnsupportedSimulationType (SimulationInitParamsDto.type params)).

(** [now0] and draw [k] make the identifier, [now1] and [now2] are read
    by the clock's [initialize], [now3] stamps [createdAt]. *)
Definition initializeSimulation (now0 now1 now2 now3 : Z) (rnd : nat -> R) (k : nat)
    (params : SimulationInitParamsDto.t) (store : Store)
  : (InitError + SimulationEnvironmentDto.t) * Store :=
  let simulationId := generateSimulationId now0 (rnd k) in
  match TimeControlService.initialize now1 now2
          (TimeControlInitParamsDto.mk simulationId
             (SimulationInitParamsDto.startTime params)
             (Some (timeScaleOrDefault (SimulationInitParamsDto.timeScale params))))
          store with
  | (Throw e, store') => (inl (ClockError e), store')
  | (Ok timeControl, store') =>
      match initializeDataSource params simulationId with
      | inl e => (inl e, store')
      | inr dataSource =>
          (inr (SimulationEnvironmentDto.mk simulationId
                  (SimulationInitParamsDto.type params) initialized
                  timeControl dataSource now3
                  (SimulationInitParamsDto.agentId params)
                  (descriptionOrEmpty (SimulationInitParamsDto.description params))),
           store')
      end
  end.

End SimulationService.

(** ** learning-progress.service.ts *)

Module LearningProgressService.

Inductive Error :=
| AgentNotFound (agentId : string).    (* 'Agent not found: id' *)

(** What a metric can hold: a number, [null], or nothing. *)
Inductive Value := Undefined | Null | Number (x : R).

Module LearningSnapshotDto.
Record t := mk {
  agentId : string;
  episodeNumber : R;
  rewardMean : R;
  rewardStd : R;
  lossValue : R;
  accuracyValue : R;
  explorationRate : R;
  learningRate : R;
  customMetrics : option (gmap string Value);
}.
End LearningSnapshotDto.

Module LearningSnapshot.
Record t := mk {
  snapshotId : string;
  timestamp : Z;
  episodeNumber : R;
  metrics : gmap string Value;
}.
End LearningSnapshot.

Module LearningCurve.
Record t := mk {
  episodes : list R;
  rewards : list Value;
  losses : list Value;
  accuracies : list Value;
  explorationRates : list Value;
  learningRates : list Value;
}.
End LearningCurve.

Module AgentLearningProgressData.
Record t := mk {
  snapshots : list LearningSnapshot.t;
  learningCurve : LearningCurve.t;
}.
End AgentLearningProgressData.

Module LearningSnapshotInfoDto.
Record t := mk {
  snapshotId : string;
  agentId : string;
  timestamp : Z;
  episodeNumber : R;
}.
End LearningSnapshotInfoDto.

Module LearningCurveDto.
Record t := mk {
  agentId : string;
  curve : LearningCurve.t;
}.
End LearningCurveDto.

(** The [learningProgressStore] map of the service. *)
Abbreviation Store := (gmap string AgentLearningProgressData.t).

(** [snapshot.metrics[name]] for a name that is the object's own or
    absent; the members every object inherits ([constructor],
    [toString], ...) are outside the model, and so are custom metrics
    holding anything but a number or [null]. *)
Definition metric (metrics : gmap string Value) (name : string) : Value :=
  match metrics !! name with Some v => v | None => Undefined end.

(** The [metrics] object of a snapshot: the six named metrics, then
    the custom ones spread over them. *)
Definition metricsOf (params : LearningSnapshotDto.t) : gmap string Value :=
  let named : gmap string Value :=
    <["rewardMean" := Number (LearningSnapshotDto.rewardMean params)]>
    (<["rewardStd" := Number (LearningSnapshotDto.rewardStd params)]>
    (<["lossValue" := Number (LearningSnapshotDto.lossValue params)]>
    (<["accuracyValue" := Number (LearningSnapshotDto.accuracyValue params)]>
    (<["explorationRate" := Number (LearningSnapshotDto.explorationRate params)]>
    (<["learningRate" := Number (LearningSnapshotDto.learningRate params)]> ∅))))) in
  match LearningSnapshotDto.customMetrics params with
  | Some custom => custom ∪ named
  | None => named
  end.

Definition emptyData : AgentLearningProgressData.t :=
  AgentLearningProgressData.mk [] (LearningCurve.mk [] [] [] [] [] []).

Definition getOrCreateLearningProgressData (agentId : string) (store : Store)
  : AgentLearningProgressData.t * Store :=
  match store !! agentId with
  | Some data => (data, store)
  | None => (emptyData, <[agentId := emptyData]> store)
  end.

Definition getLearningProgressData (agentId : string) (store : Store)
  : Error + AgentLearningProgressData.t :=
  match store !! agentId with
  | Some data => inr data
  | None => inl (AgentNotFound agentId)
  end.

(** [updateLearningCurve], giving the curve after the six pushes. *)
Definition updateLearningCurve (curve : LearningCurve.t)
    (snapshot : LearningSnapshot.t) : LearningCurve.t :=
  let m := metric (LearningSnapshot.metrics snapshot) in
  LearningCurve.mk
    (LearningCurve.episodes curve ++ [LearningSnapshot.episodeNumber snapshot])
    (LearningCurve.rewards curve ++ [m "rewardMean"])
    (LearningCurve.losses curve ++ [m "lossValue"])
    (LearningCurve.accuracies curve ++ [m "accuracyValue"])
    (LearningCurve.explorationRates curve ++ [m "explorationRate"])
    (LearningCurve.learningRates curve ++ [m "learningRate"]).

(** [`snapshot_${Date.now()}_${Math.floor(Math.random() * 1000000)}`] *)
Definition generateSnapshotId (now : Z) (random : R) : string :=
  "snapshot_" +:+ JS.decimal now +:+ "_" +:+ JS.decimal (Zfloor (random * 1000000)).

(** [now] is read for the identifier, [now'] for the timestamp;
    [random] is the draw of the identifier.  The model state carried
    by a snapshot is never read and is left out. *)
Definition recordLearningSnapshot (now now' : Z) (random : R)
    (params : LearningSnapshotDto.t) (store : Store)
  : LearningSnapshotInfoDto.t * Store :=
  let agentId := LearningSnapshotDto.agentId params in
  let '(progressData, store1) := getOrCreateLearningProgressData agentId store in
  let snapshotId := generateSnapshotId now random in
  let snapshot :=
    LearningSnapshot.mk snapshotId now'
      (LearningSnapshotDto.episodeNumber params) (metricsOf params) in
  let progressData' :=
    AgentLearningProgressData.mk
      (AgentLearningProgressData.snapshots progressData ++ [snapshot])
      (updateLearningCurve (AgentLearningProgressData.learningCurve progressData)
                           snapshot) in
  (LearningSnapshotInfoDto.mk snapshotId agentId now'
     (LearningSnapshotDto.episodeNumber params),
   <[agentId := progressData']> store1).

Definition getAgentLearningCurve (agentId : string) (store : Store)
  : Error + LearningCurveDto.t :=
  match getLearningProgressData agentId store with
  | inl e => inl e
  | inr progressData =>
      inr (LearningCurveDto.mk agentId
             (AgentLearningProgressData.learningCurve progressData))
  end.



End LearningProgressService.

(** ** Vocabulary of the properties *)

Module ClockSpec.

Import TimeControlService.




(** The operations that return a [TimeInfoDto], with the wall-clock
    readings each one makes. *)
Inductive Operation :=
| GetCurrentTime (now : Z)
| SetTimeScale (now now' : Z) (timeScale : JS.number)
| Pause (now : Z)
| Resume (now : Z)
| Reset
| SetCurrentTime (now : Z) (timestamp : JS.Date).

Definition perform (op : Operation) (simulationId : string) (store : Store)
  : result TimeInfoDto.t * Store :=
  match op with
  | GetCurrentTime now => getCurrentTime now simulationId store
  | SetTimeScale now now' s => setTimeScale now now' simulationId s store
  | Pause now => pause now simulationId store
  | Resume now => resume now simulationId store
  | Reset => reset simulationId store
  | SetCurrentTime now ts => setCurrentTime now simulationId ts store
  end.

(** Reading the clock at each of the wall-clock instants [times], in
    order: the answers and the final store. *)
Fixpoint readAll (times : list Z) (simulationId : string) (store : Store)
  : list (result TimeInfoDto.t) * Store :=
  match times with
  | [] => ([], store)
  | now :: rest =>
      let '(r, store1) := getCurrentTime now simulationId store in
      let '(rs, store2) := readAll rest simulationId store1 in
      (r :: rs, store2)
  end.

(** A store holding one simulation, as [initialize] leaves it. *)
Definition sampleStore (simulationId : string) (start : Z) (scale : JS.number)
    (now : Z) : Store :=
  snd (initialize now now
         (TimeControlInitParamsDto.mk simulationId (Some (JS.TimeValue start))
                                      (Some scale)) ∅).

(** Every clock of the store runs at a scale between 0.1 and 1000. *)
Definition scalesInRange (store : Store) : Prop :=
  ∀ id d, store !! id = Some d →
          (1 # 10 <= TimeControlData.timeScale d)%Q ∧
          (TimeControlData.timeScale d <= 1000)%Q.


(** The operations that may move the current time backward. *)
Definition rewinds (op : Operation) : bool :=
  match op with
  | Reset | SetCurrentTime _ _ => true
  | _ => false
  end.

(** The first wall-clock reading an operation makes, if it makes one. *)
Definition firstReading (op : Operation) : option Z :=
  match op with
  | GetCurrentTime now | SetTimeScale now _ _ | Pause now | Resume now
  | SetCurrentTime now _ => Some now
  | Reset => None
  end.

End ClockSpec.

Module ReplaySpec.

Import HistoricalService.

(** The price a query result holds for a token, if any. *)
Definition priceIn (r : Error + HistoricalMarketDataDto.t) (token : string)
  : option Q :=
  match r with
  | inl _ => None
  | inr dto => TokenData.price <$> HistoricalMarketDataDto.tokens dto !! token
  end.

(** [token.toLowerCase().includes(name)] *)
Definition mentions (token name : string) : bool :=
  JS.includes (JS.toLowerCase token) name.

(** The price band the name of a token selects: the first of "btc",
    "eth", "usdc"/"usdt" it mentions decides. *)
Definition inBand (token : string) (p : Q) : Prop :=
  if mentions token "btc"
  then (30000 <= p)%Q ∧ (p <= 49999)%Q ∧ Qden p = 1%positive
  else if mentions token "eth"
  then (1500 <= p)%Q ∧ (p <= 3499)%Q ∧ Qden p = 1%positive
  else if mentions token "usdc" || mentions token "usdt"
  then (98 # 100 <= p)%Q ∧ (p <= 102 # 100)%Q
  else (1 # 10 <= p)%Q ∧ (p <= 100)%Q.


End ReplaySpec.

Module ScenarioSpec.

Import ScenariosService.

(** A number, not NaN, above zero. *)
Definition positive (n : Num.t) : Prop := ∃ x, n = Some x ∧ (0 < x)%R.

(** A field that, when supplied, lies between [lo] and [hi]. *)
Definition within (lo hi : R) (field : option R) : Prop :=
  ∀ x, field = Some x → (lo <= x <= hi)%R.

(** The ranges of the scenario parameters. *)
Definition parametersInRange (p : Parameters.t) : Prop :=
  within 0 1 (Parameters.intensity p) ∧
  within (-1) 1 (Parameters.direction_bias p) ∧
  within 0 1 (Parameters.range_width p) ∧
  within 0 1 (Parameters.recovery_speed p).

(** The amounts of an order book, level by level. *)
Definition amounts (book : list OrderLevel.t) : list Num.t :=
  OrderLevel.amount <$> book.

(** [{ intensity: 0.7 }] *)
Definition intensityOnly (i : R) : Parameters.t :=
  Parameters.mk None (Some i) None None None.

(** A random source whose every draw is 0: no jitter. *)
Definition noJitter : nat -> R := λ _, 0%R.

(** A scenario query from the epoch, [elapsed] milliseconds in. *)
Definition queryAt (scenarioType : string) (parameters : option Parameters.t)
    (elapsed : Z) (tokens : list string) : ScenarioDataQueryDto.t :=
  ScenarioDataQueryDto.mk scenarioType parameters (JS.TimeValue 0)
                          (JS.TimeValue elapsed) tokens.

(** A number, not NaN, between [lo] and [hi]. *)
Definition between (lo hi : R) (n : Num.t) : Prop :=
  ∃ x, n = Some x ∧ (lo <= x <= hi)%R.

(** The three aggregate indices all lie between [lo] and [hi]. *)
Definition metricsBetween (lo hi : R) (m : MarketMetrics.t) : Prop :=
  between lo hi (MarketMetrics.volatilityIndex m) ∧
  between lo hi (MarketMetrics.liquidityIndex m) ∧
  between lo hi (MarketMetrics.sentimentIndex m).

(** The name of each label of the [switch] statements. *)
Definition nameOf (sc : Scenario) : string :=
  match sc with
  | bull_market => "bull_market"
  | bear_market => "bear_market"
  | market_crash => "market_crash"
  | sideways_market => "sideways_market"
  | high_volatility => "high_volatility"
  | liquidity_crisis => "liquidity_crisis"
  | flash_crash => "flash_crash"
  end.

(** The parameters [p] with the [intensity] field replaced. *)
Definition withIntensity (p : Parameters.t) (intensity : option R) : Parameters.t :=
  Parameters.mk (Parameters.duration p) intensity (Parameters.recovery_speed p)
                (Parameters.range_width p) (Parameters.direction_bias p).

End ScenarioSpec.

Module LearningSpec.

Import LearningProgressService.

(** The six lists of a learning curve all have [n] entries. *)
Definition curveLength (n : nat) (curve : LearningCurve.t) : Prop :=
  length (LearningCurve.episodes curve) = n ∧
  length (LearningCurve.rewards curve) = n ∧
  length (LearningCurve.losses curve) = n ∧
  length (LearningCurve.accuracies curve) = n ∧
  length (LearningCurve.explorationRates curve) = n ∧
  length (LearningCurve.learningRates curve) = n.

(** Every agent's curve has one entry per snapshot. *)
Definition aligned (store : Store) : Prop :=
  ∀ agentId data, store !! agentId = Some data →
    curveLength (length (AgentLearningProgressData.snapshots data))
                (AgentLearningProgressData.learningCurve data).

(** One call of [recordLearningSnapshot]: its two wall-clock readings,
    its draw and its argument. *)
Definition Call : Type := Z * Z * R * LearningSnapshotDto.t.

(** The calls made one after the other. *)
Fixpoint recordAll (calls : list Call) (store : Store) : Store :=
  match calls with
  | [] => store
  | (now, now', random, params) :: rest =>
      recordAll rest (snd (recordLearningSnapshot now now' random params store))
  end.

(** The value the curve gets for a metric of a call. *)
Definition recorded (name : string) (call : Call) : Value :=
  metric (metricsOf (snd call)) name.

End LearningSpec.

(** * Properties *)

(** ** The virtual clock *)

Section Clock.

Import TimeControlService ClockSpec.
Import TimeControlData.

Local Open Scope Z_scope.

Lemma getTimeControlData_Some simulationId (store : Store) d :
  store !! simulationId = Some d →
  getTimeControlData simulationId store = Ok d.
Proof. intros H. unfold getTimeControlData. now rewrite H. Qed.

Lemma getTimeControlData_None simulationId (store : Store) :
  store !! simulationId = None →
  getTimeControlData simulationId store = Throw (SimulationNotFound simulationId).
Proof. intros H. unfold getTimeControlData. now rewrite H. Qed.

(** [timeClip] drops less than one millisecond. *)
Lemma timeClip_bound (q : Q) :
  (q - 1 < inject_Z (JS.timeClip q))%Q ∧ (inject_Z (JS.timeClip q) < q + 1)%Q.
Proof.
  destruct q as [n d]. unfold JS.timeClip. simpl.
  pose proof (Z.quot_rem' n (Zpos d)) as Hdiv.
  assert (Hrem : Z.abs (Z.rem n (Zpos d)) < Zpos d).
  { pose proof (Z.rem_bound_abs n (Zpos d)). lia. }
  unfold Qlt, Qminus, Qplus, Qopp, inject_Z. simpl.
  split; nia.
Qed.

(** On a whole number of milliseconds [timeClip] is exact. *)
Lemma timeClip_inject_Z (z : Z) : JS.timeClip (inject_Z z) = z.
Proof. unfold JS.timeClip. simpl. apply Z.quot_1_r. Qed.









Lemma getCurrentTime_Some now id (store : Store) d :
  store !! id = Some d →
  getCurrentTime now id store
  = (Ok (timeInfo id (syncIfRunning now d)), <[id := syncIfRunning now d]> store).
Proof.
  intros Hd. unfold getCurrentTime. now rewrite (getTimeControlData_Some _ _ _ Hd).
Qed.



Lemma pause_Some now id (store : Store) d :
  store !! id = Some d →
  let d1 := syncIfRunning now d in
  let d2 := mk (simulationId d1) (startTime d1) (currentTime d1) (timeScale d1)
               paused (lastUpdateRealTime d1) in
  pause now id store = (Ok (timeInfo id d2), <[id := d2]> store).
Proof.
  intros Hd. unfold pause. now rewrite (getTimeControlData_Some _ _ _ Hd).
Qed.


(** A read of a paused clock answers from the record and leaves the
    store as it is. *)
Lemma getCurrentTime_paused now id (store : Store) d :
  store !! id = Some d → status d = paused →
  getCurrentTime now id store = (Ok (timeInfo id d), store).
Proof.
  intros Hd Hp. rewrite (getCurrentTime_Some now id store d Hd).
  unfold syncIfRunning. rewrite Hp. now rewrite (insert_id store id d Hd).
Qed.

Lemma readAll_paused times id (store : Store) d :
  store !! id = Some d → status d = paused →
  readAll times id store = (map (λ _, Ok (timeInfo id d)) times, store).
Proof.
  intros Hd Hp. induction times as [|now rest IH]; simpl; [reflexivity|].
  rewrite (getCurrentTime_paused now id store d Hd Hp). now rewrite IH.
Qed.



(** C10: whatever operation returns a [TimeInfoDto], its
    [realTimeFactor] is the returned [timeScale] when the returned
    status is running and 0 when it is paused. *)
Theorem realTimeFactor_matches_status op id (store : Store) dto store' :
  perform op id store = (Ok dto, store') →
  TimeInfoDto.realTimeFactor dto
  = match TimeInfoDto.status dto with
    | running => TimeInfoDto.timeScale dto
    | paused => 0%Q
    end.
Proof.
  assert (Hinfo : ∀ d, TimeInfoDto.realTimeFactor (timeInfo id d)
    = match TimeInfoDto.status (timeInfo id d) with
      | running => TimeInfoDto.timeScale (timeInfo id d)
      | paused => 0%Q
      end) by reflexivity.
  destruct op as [now|now now' s|now|now| |now ts]; simpl;
    [unfold getCurrentTime|unfold setTimeScale|unfold pause|unfold resume
    |unfold reset|unfold setCurrentTime];
    destruct (getTimeControlData id store) as [d|e]; try discriminate; cbv zeta.
  - intros [= <- _]. apply Hinfo.
  - destruct (validateTimeScale s); [|discriminate]. intros [= <- _]. apply Hinfo.
  - intros [= <- _]. apply Hinfo.
  - intros [= <- _]. apply Hinfo.
  - intros [= <- _]. apply Hinfo.
  - destruct ts; [discriminate|]. intros [= <- _]. apply Hinfo.
Qed.

(** Pausing a running clock at scale 2 returns factor 0. *)
Lemma realTimeFactor_matches_status_witness :
  let store := sampleStore "sim_1" 1000 (JS.Finite 2) 50 in
  ∃ dto store',
    perform (Pause 80) "sim_1" store = (Ok dto, store') ∧
    TimeInfoDto.status dto = paused ∧
    TimeInfoDto.realTimeFactor dto = 0%Q.
Proof.
  intros store.
  eexists _, _. split; [reflexivity|]. split; [reflexivity|].
  exact (realTimeFactor_matches_status (Pause 80) "sim_1" store _ _ eq_refl).
Defined.

End Clock.

(** ** The historical replayer *)

Section Historical.

Import HistoricalService ReplaySpec.

Arguments JS.toISOString : simpl never.

Lemma getBasePriceForToken_valid token t :
  ∃ iso, JS.toISOString (JS.TimeValue t) = Some iso ∧
         getBasePriceForToken token (JS.TimeValue t)
         = Some (priceBand token (simpleHash (token +:+ iso))).
Proof.
  unfold getBasePriceForToken.
  destruct (JS.toISOString (JS.TimeValue t)) as [iso|] eqn:E.
  - exists iso. split; reflexivity.
  - unfold JS.toISOString in E.
    destruct (JS.civilFromDays _) as [[? ?] ?]. discriminate.
Qed.

(** What the loop leaves under a key: the base price for a listed
    token, the earlier entry otherwise; the random draws only reach
    the other fields. *)
Lemma tokenLoop_price rnd t tokens : ∀ k acc token,
  TokenData.price <$> (fst (tokenLoop rnd (JS.TimeValue t) tokens k acc)) !! token
  = if bool_decide (token ∈ tokens)
    then getBasePriceForToken token (JS.TimeValue t)
    else TokenData.price <$> acc !! token.
Proof.
  induction tokens as [|tok rest IH]; intros k acc token.
  - reflexivity.
  - cbn [tokenLoop].
    destruct (getBasePriceForToken_valid tok t) as (iso & _ & Hbase).
    rewrite Hbase. rewrite IH.
    destruct (bool_decide (token ∈ rest)) eqn:Hrest.
    + apply bool_decide_eq_true in Hrest.
      rewrite bool_decide_eq_true_2 by (right; exact Hrest). reflexivity.
    + apply bool_decide_eq_false in Hrest.
      destruct (decide (token = tok)) as [->|Hne].
      * rewrite bool_decide_eq_true_2 by left.
        rewrite lookup_insert_eq. simpl. now rewrite Hbase.
      * rewrite lookup_insert_ne by congruence.
        rewrite bool_decide_eq_false_2; [reflexivity|].
        intros Hin. apply elem_of_cons in Hin as [?|?]; contradiction.
Qed.

Lemma getHistoricalData_price rnd k timestamp tokens token :
  priceIn (fst (getHistoricalData rnd k
                  (HistoricalDataQueryDto.mk timestamp tokens))) token
  = if bool_decide (token ∈ tokens)
    then getBasePriceForToken token timestamp
    else None.
Proof.
  unfold getHistoricalData. simpl.
  destruct timestamp as [|t].
  - simpl. now destruct (bool_decide _).
  - destruct (getBasePriceForToken_valid token t) as (iso & Hiso & _).
    rewrite Hiso.
    pose proof (tokenLoop_price rnd t tokens (k + 2) ∅ token) as Hloop.
    destruct (tokenLoop rnd (JS.TimeValue t) tokens (k + 2) ∅) as [m k'].
    simpl in *. rewrite Hloop. rewrite lookup_empty. reflexivity.
Qed.

(** C7: the price reported for a token at a timestamp is the same in
    any two queries with the same token list and timestamp, whatever
    the random source yields in either and wherever in its stream each
    query starts: the price is a function of the token and the
    timestamp alone.  For a listed token it is [getBasePriceForToken]
    of the two. *)
Theorem historical_price_deterministic rnd1 k1 rnd2 k2 timestamp tokens token :
  priceIn (fst (getHistoricalData rnd1 k1
                  (HistoricalDataQueryDto.mk timestamp tokens))) token
  = priceIn (fst (getHistoricalData rnd2 k2
                    (HistoricalDataQueryDto.mk timestamp tokens))) token
  ∧ (token ∈ tokens →
     priceIn (fst (getHistoricalData rnd1 k1
                     (HistoricalDataQueryDto.mk timestamp tokens))) token
     = getBasePriceForToken token timestamp).
Proof.
  rewrite !getHistoricalData_price. split; [reflexivity|].
  intros Hin. now rewrite bool_decide_eq_true_2.
Qed.

(** ETH at the epoch costs 2986 whatever the random source. *)
Lemma historical_price_deterministic_witness :
  "ETH" ∈ ["BTC"; "ETH"] ∧
  priceIn (fst (getHistoricalData (λ _, 0%R) 0
                  (HistoricalDataQueryDto.mk (JS.TimeValue 0) ["BTC"; "ETH"]))) "ETH"
  = Some (inject_Z 2986).
Proof.
  assert (Hin : "ETH" ∈ ["BTC"; "ETH"]) by (right; left).
  split; [exact Hin|].
  rewrite (proj2 (historical_price_deterministic (λ _, 0%R) 0 (λ _, 0%R) 0
                    (JS.TimeValue 0) ["BTC"; "ETH"] "ETH") Hin).
  vm_compute. reflexivity.
Defined.

End Historical.

(** ** The scenario generator *)

Section Scenarios.

Import ScenariosService ScenarioSpec.
Import Parameters.

Local Open Scope R_scope.

Ltac num_unfold :=
  cbv [Num.add Num.sub Num.mul Num.div Num.neg Num.min Num.max Num.sin
       Num.exp Num.sqr Num.floor Num.lift1 Num.lift2 Num.fin Num.NaN
       Num.ofField] in *.

Lemma orDefault_cases field d :
  (Num.orDefault field d = Some d ∧ (field = None ∨ field = Some 0)) ∨
  (∃ x, Num.orDefault field d = Some x ∧ field = Some x ∧ x ≠ 0).
Proof.
  destruct field as [x|]; simpl; [|now left; split; [|left]].
  destruct (Req_dec_T x 0) as [->|Hx].
  - left. split; [reflexivity|now right].
  - right. exists x. repeat split; assumption.
Qed.

Lemma orDefault_supplied x d : x ≠ 0 → Num.orDefault (Some x) d = Some x.
Proof. intros Hx. simpl. now destruct (Req_dec_T x 0). Qed.

Lemma orDefault_absent d : Num.orDefault None d = Some d.
Proof. reflexivity. Qed.

(** A defaulted field stays in the half-open range its bounds and a
    positive default give. *)
Lemma orDefault_within field d hi :
  within 0 hi field → 0 < d <= hi →
  ∃ x, Num.orDefault field d = Some x ∧ 0 < x <= hi.
Proof.
  intros Hw Hd.
  destruct (orDefault_cases field d) as [[-> _]|(x & -> & Hf & Hx)].
  - exists d. split; [reflexivity|exact Hd].
  - exists x. split; [reflexivity|]. specialize (Hw x Hf). lra.
Qed.

Lemma scenarioOf_None scenarioType :
  scenarioOf scenarioType = None ↔ scenarioType ∉ validScenarios.
Proof.
  unfold scenarioOf, validScenarios.
  repeat (match goal with
          | |- context [String.eqb ?s ?c] =>
              destruct (String.eqb_spec s c) as [->|?];
              [split; [discriminate|intros H; exfalso; apply H; set_solver]|]
          end).
  split; [|reflexivity]. intros _ Hin.
  repeat (apply elem_of_cons in Hin as [?|Hin]; [contradiction|]).
  now apply elem_of_nil in Hin.
Qed.

Lemma exp_neg_lt_1 x : x < 0 → exp x < 1.
Proof. intros Hx. rewrite <- exp_0. now apply exp_increasing. Qed.

Lemma exp_nonpos_le_1 x : x <= 0 → exp x <= 1.
Proof.
  intros [Hx| ->]; [left; now apply exp_neg_lt_1|rewrite exp_0; lra].
Qed.

(** C8: in a market crash of intensity 0.7 the price modifier a tenth
    of the way in is strictly below the modifier at the start (which
    is 1). *)
Theorem market_crash_dips :
  ∃ a b,
    getPriceModifier "market_crash" (intensityOnly 0.7) (Num.fin 0.1) = Some a ∧
    getPriceModifier "market_crash" (intensityOnly 0.7) (Num.fin 0.0) = Some b ∧
    b = 1 ∧ a < b.
Proof.
  unfold getPriceModifier, intensityOnly.
  change (scenarioOf "market_crash") with (Some market_crash).
  cbv [Parameters.intensity Parameters.recovery_speed crashPoint].
  rewrite (orDefault_supplied 0.7 0.5) by lra. rewrite orDefault_absent.
  num_unfold.
  eexists _, _. split; [reflexivity|]. split; [reflexivity|].
  assert (H0 : Rmin 1 (0.0 / 0.2) = 0) by (rewrite Rmin_right; lra).
  assert (H1 : Rmin 1 (0.1 / 0.2) = 1 / 2) by (rewrite Rmin_right; lra).
  assert (H2 : Rmax 0 ((0.1 - 0.2) / 0.8) = 0) by (rewrite Rmax_left; lra).
  rewrite H0, H1, H2.
  replace (-5 * 0) with 0 by lra. rewrite exp_0.
  pose proof (exp_neg_lt_1 (-5 * (1 / 2)) ltac:(lra)) as Hexp.
  split; [lra|]. nra.
Qed.

Lemma orderBookLoop_lookup rnd type price depthModifier : ∀ n k i0 i,
  (i < n)%nat →
  orderBookLoop rnd k type price depthModifier n i0 !! i
  = Some (orderLevel type price depthModifier (i0 + i) (rnd (k + i)%nat)).
Proof.
  induction n as [|n IH]; intros k i0 i Hi; [lia|].
  destruct i as [|i]; simpl.
  - now rewrite !Nat.add_0_r.
  - rewrite IH by lia. do 2 f_equal; [|f_equal]; lia.
Qed.

Lemma orderBookLoop_length rnd type price depthModifier : ∀ n k i0,
  length (orderBookLoop rnd k type price depthModifier n i0) = n.
Proof. induction n as [|n IH]; intros; simpl; [reflexivity|now rewrite IH]. Qed.

Lemma generateOrderBook_lookup rnd k type price levels depthModifier i :
  (i < levels)%nat →
  generateOrderBook rnd k type price levels depthModifier !! i
  = Some (orderLevel type price depthModifier i (rnd (k + i)%nat)).
Proof. intros Hi. unfold generateOrderBook. now rewrite orderBookLoop_lookup. Qed.

(** Every level asked for is produced, and no other. *)
Lemma generateOrderBook_length rnd k type price levels depthModifier :
  length (generateOrderBook rnd k type price levels depthModifier) = levels.
Proof. apply orderBookLoop_length. Qed.

(** C9: when every draw of the random source is zero, then for a
    depth modifier that is not negative, any base price and any
    number of levels, the amount at a level is at most the amount at
    every earlier level. *)
Theorem orderBook_amounts_nonincreasing rnd k type price levels dm i j ai aj :
  (∀ n, rnd n = 0) → 0 <= dm → (i <= j)%nat →
  amounts (generateOrderBook rnd k type price levels (Num.fin dm)) !! i = Some ai →
  amounts (generateOrderBook rnd k type price levels (Num.fin dm)) !! j = Some aj →
  ∃ x y, ai = Some x ∧ aj = Some y ∧ y <= x.
Proof.
  intros Hrnd Hdm Hij Hi Hj. unfold amounts in *.
  rewrite list_lookup_fmap in Hi, Hj.
  assert (Hjl : (j < levels)%nat).
  { destruct (generateOrderBook _ _ _ _ _ _ !! j) eqn:E; [|discriminate].
    apply lookup_lt_Some in E. now rewrite generateOrderBook_length in E. }
  rewrite generateOrderBook_lookup in Hi, Hj by lia.
  simpl in Hi, Hj. rewrite !Hrnd in Hi, Hj. num_unfold.
  injection Hi as <-. injection Hj as <-.
  eexists _, _. split; [reflexivity|]. split; [reflexivity|].
  pose proof (le_INR i j Hij) as Hle.
  replace (1 + 0.2 * 0) with 1 by lra. nra.
Qed.

(** Five levels at depth modifier 2 without jitter: level 1 holds
    1700, level 3 holds 1100. *)
Lemma orderBook_amounts_nonincreasing_witness :
  ∃ x y,
    amounts (generateOrderBook noJitter 0 ask (Num.fin 100) 5 (Num.fin 2)) !! 1%nat
    = Some (Some x) ∧
    amounts (generateOrderBook noJitter 0 ask (Num.fin 100) 5 (Num.fin 2)) !! 3%nat
    = Some (Some y) ∧
    y <= x.
Proof.
  destruct (orderBook_amounts_nonincreasing noJitter 0 ask (Num.fin 100) 5 2 1 3
              _ _ (λ _, eq_refl) ltac:(lra) ltac:(lia) eq_refl eq_refl)
    as (x & y & Hx & Hy & Hle).
  exists x, y. rewrite <- Hx, <- Hy. repeat split; [reflexivity.. | exact Hle].
Defined.

(** *** Prices *)

Lemma simpleHash_nonneg str : (0 <= simpleHash str)%Z.
Proof. apply Z.abs_nonneg. Qed.

(** Every band of base prices lies above zero. *)
Lemma getBasePriceForToken_pos token : (0 < getBasePriceForToken token)%Q.
Proof.
  unfold getBasePriceForToken.
  pose proof (simpleHash_nonneg token) as Hh.
  set (hash := simpleHash token) in *.
  pose proof (Z.rem_nonneg hash 20000 ltac:(lia) Hh).
  pose proof (Z.rem_nonneg hash 2000 ltac:(lia) Hh).
  pose proof (Z.rem_nonneg hash 5 ltac:(lia) Hh).
  pose proof (Z.rem_nonneg hash 1000 ltac:(lia) Hh).
  repeat (match goal with |- context [if ?b then _ else _] => destruct b end);
    unfold Qlt, Qplus, Qdiv, Qmult, Qinv, inject_Z; simpl; lia.
Qed.

Lemma basePrice_pos token : 0 < Q2R (getBasePriceForToken token).
Proof.
  rewrite <- RMicromega.Q2R_0. apply Qlt_Rlt, getBasePriceForToken_pos.
Qed.

Lemma crashPoint_bounds progress :
  0 <= progress <= 1 →
  ∃ c, crashPoint (Num.fin progress) = Some c ∧ 0 <= c <= 1.
Proof.
  intros Hp. unfold crashPoint. num_unfold. eexists. split; [reflexivity|].
  split.
  - apply Rmin_glb; lra.
  - apply Rmin_l.
Qed.

Lemma flashCrashPhase_bounds progress :
  0 <= progress <= 1 →
  ∃ v, flashCrashPhase (Num.fin progress) = Some v ∧ 0 <= v <= 1.
Proof.
  intros Hp. unfold flashCrashPhase, Num.ltb. num_unfold.
  destruct (Rlt_dec progress 0.1); [exists 0; split; [reflexivity|lra]|].
  destruct (Rlt_dec progress 0.3); [|exists 1; split; [reflexivity|lra]].
  eexists. split; [reflexivity|]. lra.
Qed.

Lemma flashCrashRecovery_bounds progress :
  0 <= progress <= 1 →
  ∃ v, flashCrashRecovery (Num.fin progress) = Some v ∧ 0 <= v <= 1.
Proof.
  intros Hp. unfold flashCrashRecovery, Num.ltb. num_unfold.
  destruct (Rlt_dec progress 0.3); [exists 0; split; [reflexivity|lra]|].
  eexists. split; [reflexivity|]. lra.
Qed.


(** The loop adds no key beyond the listed tokens. *)
Lemma tokenLoop_lookup_notin rnd scenarioType p progress tokens : ∀ k acc token,
  token ∉ tokens →
  fst (tokenLoop rnd k scenarioType p progress tokens acc) !! token = acc !! token.
Proof.
  induction tokens as [|tok rest IH]; intros k acc token Hnin; [reflexivity|].
  cbn [tokenLoop]. rewrite IH by (intros Hin; apply Hnin; now right).
  apply lookup_insert_ne. intros ->. apply Hnin. now left.
Qed.

(** The entry the loop leaves under a listed token is the one
    [tokenData] builds for it (at its last occurrence in the list). *)
Lemma tokenLoop_lookup_in rnd scenarioType p progress tokens : ∀ k acc token,
  token ∈ tokens →
  ∃ k', fst (tokenLoop rnd k scenarioType p progress tokens acc) !! token
        = Some (tokenData rnd k' scenarioType p progress token).
Proof.
  induction tokens as [|tok rest IH]; intros k acc token Hin.
  - now apply elem_of_nil in Hin.
  - cbn [tokenLoop].
    destruct (decide (token ∈ rest)) as [Hrest|Hrest]; [now apply IH|].
    apply elem_of_cons in Hin as [->|Hin]; [|contradiction].
    exists k. rewrite tokenLoop_lookup_notin by exact Hrest.
    apply lookup_insert_eq.
Qed.

Lemma generateMarketData_tokens now rnd k scenarioType p progress tokens :
  ScenarioMarketDataDto.tokens
    (fst (generateMarketData now rnd k scenarioType p progress tokens))
  = fst (tokenLoop rnd k scenarioType p progress tokens ∅).
Proof.
  unfold generateMarketData.
  now destruct (tokenLoop rnd k scenarioType p progress tokens ∅).
Qed.

(** What a snapshot holds under a key: nothing for an unlisted token,
    the entry of [tokenData] for a listed one. *)
Lemma generateMarketData_lookup now rnd k scenarioType p progress tokens token :
  ((token ∉ tokens) ∧
   ScenarioMarketDataDto.tokens
     (fst (generateMarketData now rnd k scenarioType p progress tokens)) !! token
   = None) ∨
  (token ∈ tokens ∧ ∃ k',
   (ScenarioMarketDataDto.tokens
     (fst (generateMarketData now rnd k scenarioType p progress tokens)) !! token)
   = Some (tokenData rnd k' scenarioType p progress token)).
Proof.
  rewrite generateMarketData_tokens.
  destruct (decide (token ∈ tokens)) as [Hin|Hnin].
  - right. split; [exact Hin|]. now apply tokenLoop_lookup_in.
  - left. split; [exact Hnin|]. now rewrite tokenLoop_lookup_notin.
Qed.


Lemma sin_3_PI2 : sin (0.15 * 10 * PI) = -1.
Proof.
  replace (0.15 * 10 * PI) with (3 * (PI / 2)) by lra. apply sin_3PI2.
Qed.


(** The other corner: a sideways market of range width 1 prices every
    token at exactly zero at progress 0.15. *)
Lemma sideways_price_zero token :
  let p := Parameters.mk None (Some 1) (Some 0.5) (Some 1) (Some 0) in
  TokenData.price (tokenData noJitter 0 "sideways_market" p (Num.fin 0.15) token)
  = Some 0.
Proof.
  intros p. cbn [tokenData TokenData.price]. unfold getPriceModifier.
  change (scenarioOf "sideways_market") with (Some sideways_market).
  cbv [p intensity range_width].
  rewrite !orDefault_supplied by lra.
  num_unfold. rewrite sin_3_PI2. f_equal. lra.
Qed.



(** *** Unrecognised scenario types *)

Lemma getScenarioData_eq now rnd k scenarioType parameters startTime currentTime tokens :
  getScenarioData now rnd k
    (ScenarioDataQueryDto.mk scenarioType parameters startTime currentTime tokens)
  = generateMarketData now rnd k scenarioType (orEmpty parameters)
      (progressOf startTime currentTime
         (getScenarioConfig scenarioType (orEmpty parameters)))
      tokens.
Proof. reflexivity. Qed.

Lemma generateMarketData_fields now rnd k scenarioType p progress tokens :
  let dto := fst (generateMarketData now rnd k scenarioType p progress tokens) in
  ScenarioMarketDataDto.timestamp dto = now ∧
  ScenarioMarketDataDto.progress dto = progress ∧
  ScenarioMarketDataDto.marketMetrics dto = marketMetricsOf scenarioType progress.
Proof.
  unfold generateMarketData.
  now destruct (tokenLoop rnd k scenarioType p progress tokens ∅).
Qed.

(** An unrecognised name that is no inherited property selects the
    bull market configuration. *)
Lemma getScenarioConfig_fallback scenarioType p :
  scenarioType ∉ validScenarios → scenarioType ∉ inheritedProperties →
  getScenarioConfig scenarioType p = getScenarioConfig "bull_market" p.
Proof.
  intros Hv Hi. unfold getScenarioConfig.
  rewrite (proj2 (scenarioOf_None scenarioType) Hv).
  now rewrite bool_decide_eq_false_2.
Qed.

(** The entry of a token under an unrecognised scenario type: every
    modifier is 1. *)
Lemma tokenData_unrecognised rnd k scenarioType p progress token :
  scenarioOf scenarioType = None →
  let price := Num.fin (Q2R (getBasePriceForToken token)) in
  tokenData rnd k scenarioType p progress token
  = TokenData.mk price
      (Num.fin ((rnd k * 2 - 1) * 5))
      (Num.fin 1000000)
      (MarketDepth.mk
         (generateOrderBook rnd (k + 1) ask price levels (Num.fin 1))
         (generateOrderBook rnd (k + 1 + levels) bid price levels (Num.fin 1))).
Proof.
  intros Hsc. unfold tokenData, getPriceModifier, getVolumeModifier,
    getDepthModifier, getPriceChange. rewrite Hsc. cbv zeta.
  assert (Hprice : (Num.fin (Q2R (getBasePriceForToken token)) * Num.fin 1)%num
                   = Num.fin (Q2R (getBasePriceForToken token))).
  { num_unfold. f_equal. lra. }
  rewrite Hprice. f_equal.
  num_unfold. f_equal. replace (1000000 * 1) with (IZR 1000000) by lra.
  now rewrite ZfloorZ.
Qed.

(** The entry of a token in a bull market. *)
Lemma tokenData_bull_price rnd k p progress token :
  TokenData.price (tokenData rnd k "bull_market" p progress token)
  = (Num.fin (Q2R (getBasePriceForToken token))
     * (Num.fin 1 + Num.orDefault (intensity p) 0.5 * progress))%num.
Proof. reflexivity. Qed.

(** C3, as stated, fails: seven days into a scenario of an
    unrecognised type (intensity 0.5) the price of ETH is its base
    price, while in a bull market it is one and a half times that. *)
Lemma unrecognised_scenario_price_differs :
  let parameters := Some (intensityOnly 0.5) in
  let other := fst (getScenarioData 0 noJitter 0
                      (queryAt "unknown_type" parameters 604800000 ["ETH"%string])) in
  let bull := fst (getScenarioData 0 noJitter 0
                     (queryAt "bull_market" parameters 604800000 ["ETH"%string])) in
  ("unknown_type"%string ∉ validScenarios) ∧
  ScenarioMarketDataDto.progress other = Num.fin 1 ∧
  ScenarioMarketDataDto.progress bull = Num.fin 1 ∧
  ∃ td td',
    ScenarioMarketDataDto.tokens other !! "ETH"%string = Some td ∧
    ScenarioMarketDataDto.tokens bull !! "ETH"%string = Some td' ∧
    TokenData.price td ≠ TokenData.price td'.
Proof.
  intros parameters other bull.
  assert (Hv : "unknown_type"%string ∉ validScenarios).
  { apply scenarioOf_None. reflexivity. }
  split; [exact Hv|].
  assert (Hprog : progressOf (JS.TimeValue 0) (JS.TimeValue 604800000)
                    (getScenarioConfig "bull_market" (intensityOnly 0.5))
                  = Num.fin 1).
  { unfold progressOf, getScenarioConfig.
    change (scenarioOf "bull_market") with (Some bull_market).
    cbn [durationOf configs Config.duration Parameters.duration intensityOnly
         getTime].
    rewrite orDefault_absent. num_unfold. f_equal.
    replace ((604800000 - 0) / (7 * 24 * 60 * 60 * 1000)) with 1 by lra.
    rewrite Rmax_right by lra. now rewrite Rmin_left by lra. }
  assert (Hcfg : getScenarioConfig "unknown_type" (intensityOnly 0.5)
                 = getScenarioConfig "bull_market" (intensityOnly 0.5))
    by reflexivity.
  unfold other, bull, parameters, queryAt. rewrite !getScenarioData_eq.
  cbn [orEmpty]. rewrite Hcfg, Hprog.
  split; [apply generateMarketData_fields|].
  split; [apply generateMarketData_fields|].
  rewrite !generateMarketData_tokens. cbn [tokenLoop fst].
  rewrite !lookup_insert_eq. eexists _, _. split; [reflexivity|].
  split; [reflexivity|].
  rewrite tokenData_unrecognised by reflexivity.
  rewrite tokenData_bull_price. cbn [TokenData.price].
  cbn [Parameters.intensity intensityOnly].
  rewrite orDefault_supplied by lra. num_unfold.
  intros [= Heq]. pose proof (basePrice_pos "ETH"). nra.
Qed.

(** An inherited property name does not even select the bull market
    configuration: the progress is NaN. *)
Lemma inherited_property_progress_NaN now rnd k parameters startTime currentTime tokens :
  ScenarioMarketDataDto.progress
    (fst (getScenarioData now rnd k
            (ScenarioDataQueryDto.mk "constructor" parameters
                                     startTime currentTime tokens)))
  = Num.NaN.
Proof.
  rewrite getScenarioData_eq.
  rewrite (proj1 (proj2 (generateMarketData_fields _ _ _ _ _ _ _))).
  unfold progressOf.
  change (getScenarioConfig "constructor" (orEmpty parameters))
    with (Inherited "constructor").
  cbn [durationOf]. num_unfold.
  now destruct (getTime currentTime), (getTime startTime).
Qed.

(** C3 (amended): for every scenario type that is neither one of the
    seven archetypes nor the name of a property every object
    inherits, and every parameter set, pair of dates and token list,
    [getScenarioData] raises no error, computes the progress a bull
    market has and returns the aggregate metrics of a bull market at
    that progress; its snapshot lists the same tokens, but with all
    modifiers equal to 1: each price is the base price of the token,
    each volume is 1,000,000 and the order books are built with depth
    modifier 1. *)
Theorem unrecognised_scenario_data
    now rnd k scenarioType parameters startTime currentTime tokens :
  scenarioType ∉ validScenarios →
  scenarioType ∉ inheritedProperties →
  let other :=
    fst (getScenarioData now rnd k
           (ScenarioDataQueryDto.mk scenarioType parameters
                                    startTime currentTime tokens)) in
  let bull :=
    fst (getScenarioData now rnd k
           (ScenarioDataQueryDto.mk "bull_market" parameters
                                    startTime currentTime tokens)) in
  ScenarioMarketDataDto.progress other = ScenarioMarketDataDto.progress bull ∧
  ScenarioMarketDataDto.marketMetrics other
  = ScenarioMarketDataDto.marketMetrics bull ∧
  (∀ token, is_Some (ScenarioMarketDataDto.tokens other !! token) ↔
            is_Some (ScenarioMarketDataDto.tokens bull !! token)) ∧
  (∀ token td,
     ScenarioMarketDataDto.tokens other !! token = Some td →
     let price := Num.fin (Q2R (getBasePriceForToken token)) in
     TokenData.price td = price ∧
     TokenData.volume td = Num.fin 1000000 ∧
     ∃ k',
       TokenData.priceChange24h td = Num.fin ((rnd k' * 2 - 1) * 5) ∧
       TokenData.marketDepth td
       = MarketDepth.mk
           (generateOrderBook rnd (k' + 1) ask price levels (Num.fin 1))
           (generateOrderBook rnd (k' + 1 + levels) bid price levels (Num.fin 1))).
Proof.
  intros Hv Hi other bull. unfold other, bull.
  rewrite !getScenarioData_eq.
  rewrite (getScenarioConfig_fallback scenarioType _ Hv Hi).
  set (progress := progressOf _ _ _).
  pose proof (proj2 (scenarioOf_None scenarioType) Hv) as Hsc.
  destruct (generateMarketData_fields now rnd k scenarioType
              (orEmpty parameters) progress tokens) as (_ & -> & ->).
  destruct (generateMarketData_fields now rnd k "bull_market"
              (orEmpty parameters) progress tokens) as (_ & -> & ->).
  split; [reflexivity|]. split.
  { unfold marketMetricsOf. rewrite Hsc. reflexivity. }
  split.
  - intros token.
    destruct (generateMarketData_lookup now rnd k scenarioType
                (orEmpty parameters) progress tokens token)
      as [[Hnin ->]|[Hin (k1 & ->)]];
    destruct (generateMarketData_lookup now rnd k "bull_market"
                (orEmpty parameters) progress tokens token)
      as [[Hnin' ->]|[Hin' (k2 & ->)]]; try contradiction; split; eauto.
  - intros token td.
    destruct (generateMarketData_lookup now rnd k scenarioType
                (orEmpty parameters) progress tokens token)
      as [[Hnin ->]|[Hin (k1 & ->)]]; [discriminate|].
    intros [= <-]. rewrite (tokenData_unrecognised _ _ _ _ _ _ Hsc).
    cbn [TokenData.price TokenData.volume TokenData.priceChange24h
         TokenData.marketDepth].
    split; [reflexivity|]. split; [reflexivity|].
    exists k1. split; reflexivity.
Qed.

(** Under the type "unknown_type" ETH is priced at its base price,
    with the metrics of a bull market. *)
Lemma unrecognised_scenario_data_witness :
  let other := fst (getScenarioData 0 noJitter 0
                      (queryAt "unknown_type" None 302400000 ["ETH"%string])) in
  let bull := fst (getScenarioData 0 noJitter 0
                     (queryAt "bull_market" None 302400000 ["ETH"%string])) in
  ("unknown_type"%string ∉ validScenarios) ∧
  ("unknown_type"%string ∉ inheritedProperties) ∧
  ScenarioMarketDataDto.marketMetrics other
  = ScenarioMarketDataDto.marketMetrics bull ∧
  ∃ td, ScenarioMarketDataDto.tokens other !! "ETH"%string = Some td ∧
        TokenData.price td = Num.fin (Q2R (getBasePriceForToken "ETH")).
Proof.
  intros other bull.
  assert (Hv : "unknown_type"%string ∉ validScenarios).
  { apply scenarioOf_None. reflexivity. }
  assert (Hi : "unknown_type"%string ∉ inheritedProperties).
  { apply (bool_decide_eq_false_1 _). reflexivity. }
  destruct (unrecognised_scenario_data 0%Z noJitter 0 "unknown_type" None
              (JS.TimeValue 0) (JS.TimeValue 302400000) ["ETH"%string] Hv Hi)
    as (_ & Hmetrics & _ & Htokens).
  split; [exact Hv|]. split; [exact Hi|]. split; [exact Hmetrics|].
  assert (Htd : ∃ td, ScenarioMarketDataDto.tokens other !! "ETH"%string = Some td).
  { unfold other, queryAt. rewrite getScenarioData_eq, generateMarketData_tokens.
    cbn [tokenLoop fst]. rewrite lookup_insert_eq. eauto. }
  destruct Htd as [td Htd]. exists td. split; [exact Htd|].
  exact (proj1 (Htokens _ _ Htd)).
Defined.

End Scenarios.

(** ** The orchestrator *)

Section Simulation.

Import TimeControlService SimulationService ClockSpec.

(** C1 (what the code does): [terminateSimulation] reports success
    and releases nothing, and [getSimulationState], which has no
    failing path, goes on returning a market snapshot for the
    terminated identifier; the clock record of the simulation stays
    in the time-control store. *)
Theorem terminate_then_getSimulationState now rnd k id (store : Store) :
  let store' := snd (terminateSimulation id store) in
  let state := getSimulationState now rnd k id in
  fst (terminateSimulation id store) = true ∧
  store' = store ∧
  SimulationStateDto.simulationId state = id ∧
  MarketState.tokens (SimulationStateDto.marketState state) !! "ETH"%string
  = Some (2500 + rnd k * 100)%R ∧
  MarketState.tokens (SimulationStateDto.marketState state) !! "BTC"%string
  = Some (40000 + rnd (k + 1)%nat * 1000)%R ∧
  MarketState.tokens (SimulationStateDto.marketState state) !! "USDC"%string
  = Some 1%R.
Proof.
  simpl. repeat split.
Qed.

(** After [terminateSimulation] the clock of the simulation still
    answers: the sibling operations that do look the identifier up
    find it. *)
Lemma terminate_keeps_clock :
  let store := sampleStore "sim_1700000000000_42" 1000 (JS.Finite 2) 50 in
  let store' := snd (terminateSimulation "sim_1700000000000_42" store) in
  ∃ dto, fst (getCurrentTime 80 "sim_1700000000000_42" store') = Ok dto ∧
         TimeInfoDto.currentTime dto = 1060.
Proof. simpl. eexists. split; reflexivity. Qed.

(** The failure the specification expects exists in the sibling
    paths: pausing an identifier the store does not hold throws
    'Simulation not found'. *)
Lemma pauseSimulation_unknown now now' rnd k id (store : Store) :
  store !! id = None →
  fst (pauseSimulation now now' rnd k id store) = Throw (SimulationNotFound id).
Proof.
  intros Hnone. unfold pauseSimulation, pause, getTimeControlData.
  now rewrite Hnone.
Qed.

End Simulation.

(** ** More on the virtual clock *)

Section ClockOperations.

Import TimeControlService ClockSpec.
Import TimeControlData.

Local Open Scope Z_scope.

(** X1: on an identifier the store does not hold, every operation
    throws 'Simulation not found' for that identifier and leaves the
    store as it was. *)
Theorem unknown_simulation_not_found op id (store : Store) :
  store !! id = None →
  perform op id store = (Throw (SimulationNotFound id), store).
Proof.
  intros Hnone.
  destruct op; simpl;
    [unfold getCurrentTime|unfold setTimeScale|unfold pause|unfold resume
    |unfold reset|unfold setCurrentTime];
    now rewrite (getTimeControlData_None _ _ Hnone).
Qed.

Lemma unknown_simulation_not_found_witness :
  (∅ : Store) !! "sim_9" = None ∧
  perform (SetTimeScale 5 6 (JS.Finite 2)) "sim_9" ∅
  = (Throw (SimulationNotFound "sim_9"), ∅).
Proof.
  split; [reflexivity|].
  exact (unknown_simulation_not_found (SetTimeScale 5 6 (JS.Finite 2)) "sim_9" ∅
           eq_refl).
Defined.

Ltac unfold_operation :=
  unfold perform, getCurrentTime, setTimeScale, pause, resume, reset,
    setCurrentTime.

(** What an operation does to the store: nothing, or it replaces the
    record of its own identifier. *)
Lemma perform_store op id (store : Store) :
  snd (perform op id store) = store ∨
  ∃ d d', store !! id = Some d ∧ snd (perform op id store) = <[id := d']> store.
Proof.
  destruct (store !! id) as [d|] eqn:Hd.
  - destruct op as [now|now now' n|now|now| |now ts]; unfold_operation;
      rewrite (getTimeControlData_Some _ _ _ Hd); cbv zeta;
      try (right; eexists _, _; split; [reflexivity|reflexivity]).
    + destruct (validateTimeScale n);
        right; eexists _, _; split; reflexivity.
    + destruct ts; [now left|].
      right; eexists _, _; split; reflexivity.
  - left. destruct op; unfold_operation;
      now rewrite (getTimeControlData_None _ _ Hd).
Qed.

(** X2: an operation on one simulation leaves the record of every
    other simulation untouched, whether it succeeds or throws. *)
Theorem other_simulations_untouched op id other (store : Store) :
  other ≠ id →
  snd (perform op id store) !! other = store !! other.
Proof.
  intros Hne.
  destruct (perform_store op id store) as [->|(d & d' & _ & ->)];
    [reflexivity|].
  now apply lookup_insert_ne.
Qed.

Lemma other_simulations_untouched_witness :
  let store := sampleStore "sim_1" 1000 (JS.Finite 2) 50 in
  "sim_2" ≠ "sim_1" ∧
  snd (perform (Pause 80) "sim_1" (snd (initialize 60 60
         (TimeControlInitParamsDto.mk "sim_2" None None) store))) !! "sim_2"
  = Some (mk "sim_2" 60 60 1 running 60).
Proof.
  intros store. split; [discriminate|].
  rewrite (other_simulations_untouched (Pause 80) "sim_1" "sim_2" _
             ltac:(discriminate)).
  reflexivity.
Defined.

Lemma validateTimeScale_range n s :
  validateTimeScale n = Ok s → (1 # 10 <= s)%Q ∧ (s <= 1000)%Q.
Proof.
  unfold validateTimeScale, minTimeScale, maxTimeScale.
  destruct n as [| | |q]; try discriminate.
  - intros [= <-]. split; [apply Q.le_max_l|].
    apply Q.max_lub; [discriminate|apply Qle_refl].
  - destruct (Qle_bool q 0); [discriminate|]. intros [= <-].
    split; [apply Q.le_max_l|].
    apply Q.max_lub; [discriminate|apply Q.le_min_l].
Qed.

Lemma scalesInRange_insert (store : Store) id d :
  scalesInRange store →
  (1 # 10 <= timeScale d)%Q → (timeScale d <= 1000)%Q →
  scalesInRange (<[id := d]> store).
Proof.
  intros Hs Hlo Hhi id' d' Hlook.
  destruct (decide (id' = id)) as [->|Hne].
  - rewrite lookup_insert_eq in Hlook. injection Hlook as <-. now split.
  - rewrite lookup_insert_ne in Hlook by congruence. now apply (Hs id').
Qed.

(** X3: the time scale of every clock stays between 0.1 and 1000:
    [initialize] stores a scale in that interval, and no operation
    takes a store whose scales are in it out of it. *)
Theorem time_scales_stay_in_range (store : Store) :
  scalesInRange store →
  (∀ now now' params, scalesInRange (snd (initialize now now' params store))) ∧
  (∀ op id, scalesInRange (snd (perform op id store))).
Proof.
  intros Hs. split.
  - intros now now' params. unfold initialize.
    destruct (validateTimeScale _) as [s|e] eqn:Hv; [|exact Hs].
    apply validateTimeScale_range in Hv as [Hlo Hhi].
    destruct (match TimeControlInitParamsDto.startTime params with
              | Some d => d | None => JS.TimeValue now end); [exact Hs|].
    simpl. now apply scalesInRange_insert.
  - intros op id.
    destruct (store !! id) as [d|] eqn:Hd.
    + destruct (Hs id d Hd) as [Hlo Hhi].
      assert (Hsync : ∀ now, timeScale (syncIfRunning now d) = timeScale d).
      { intros now. unfold syncIfRunning. now destruct (status d). }
      destruct op as [now|now now' n|now|now| |now ts]; unfold_operation;
        rewrite (getTimeControlData_Some _ _ _ Hd); cbv zeta; simpl.
      * apply scalesInRange_insert; rewrite ?Hsync; assumption.
      * destruct (validateTimeScale n) as [s|e] eqn:Hv; simpl.
        -- apply validateTimeScale_range in Hv as [? ?].
           now apply scalesInRange_insert.
        -- apply scalesInRange_insert; rewrite ?Hsync; assumption.
      * apply scalesInRange_insert; simpl; rewrite ?Hsync; assumption.
      * now apply scalesInRange_insert.
      * now apply scalesInRange_insert.
      * destruct ts; simpl; [exact Hs|]. now apply scalesInRange_insert.
    + destruct op; unfold_operation;
        now rewrite (getTimeControlData_None _ _ Hd).
Qed.

Lemma time_scales_stay_in_range_witness :
  scalesInRange ∅ ∧
  scalesInRange (snd (perform (SetTimeScale 7 7 JS.PosInfinity) "sim_1"
                        (sampleStore "sim_1" 0 (JS.Finite (1 # 1000)) 0))).
Proof.
  assert (H0 : scalesInRange ∅) by (intros id d Hd; discriminate).
  split; [exact H0|].
  pose proof (proj1 (time_scales_stay_in_range ∅ H0) 0 0
                (TimeControlInitParamsDto.mk "sim_1" (Some (JS.TimeValue 0))
                   (Some (JS.Finite (1 # 1000))))) as H1.
  exact (proj2 (time_scales_stay_in_range _ H1) _ _).
Defined.

Lemma reset_Some id (store : Store) d :
  store !! id = Some d →
  let d1 := mk (simulationId d) (startTime d) (startTime d) (timeScale d)
               paused (lastUpdateRealTime d) in
  reset id store = (Ok (timeInfo id d1), <[id := d1]> store).
Proof.
  intros Hd. unfold reset. now rewrite (getTimeControlData_Some _ _ _ Hd).
Qed.

(** X4: [reset] puts the clock back to its start time and pauses it,
    whatever its state and without reading the wall clock: the answer
    carries the start time, status paused and real-time factor 0, the
    time scale is kept, and every later read, at any wall-clock
    instant, returns the same answer. *)
Theorem reset_returns_to_start id (store : Store) d times :
  store !! id = Some d →
  ∃ dto,
    fst (reset id store) = Ok dto ∧
    TimeInfoDto.currentTime dto = startTime d ∧
    TimeInfoDto.status dto = paused ∧
    (TimeInfoDto.realTimeFactor dto == 0)%Q ∧
    TimeInfoDto.timeScale dto = timeScale d ∧
    readAll times id (snd (reset id store))
    = (map (λ _, Ok dto) times, snd (reset id store)).
Proof.
  intros Hd. rewrite (reset_Some id store d Hd). cbv zeta. simpl.
  eexists. split; [reflexivity|]. simpl.
  repeat split; try reflexivity.
  set (d1 := mk _ _ _ _ paused _).
  apply (readAll_paused times id _ d1); [apply lookup_insert_eq|reflexivity].
Qed.

Lemma reset_returns_to_start_witness :
  let store := snd (getCurrentTime 80 "sim_1"
                      (sampleStore "sim_1" 1000 (JS.Finite 2) 50)) in
  (currentTime <$> store !! "sim_1") = Some 1060 ∧
  ∃ dto,
    fst (reset "sim_1" store) = Ok dto ∧
    TimeInfoDto.currentTime dto = 1000 ∧
    readAll [90; 5000] "sim_1" (snd (reset "sim_1" store))
    = ([Ok dto; Ok dto], snd (reset "sim_1" store)).
Proof.
  intros store. split; [reflexivity|].
  destruct (reset_returns_to_start "sim_1" store
              (mk "sim_1" 1000 1060 2 running 80) [90; 5000] eq_refl)
    as (dto & Hr & Hcur & _ & _ & _ & Hreads).
  exists dto. split; [exact Hr|]. split; [exact Hcur|exact Hreads].
Defined.

(** X5: [pause] is idempotent: pausing a clock that was just paused,
    at whatever later instant, returns the same answer and leaves the
    store as the first pause left it. *)
Theorem pause_idempotent id (store : Store) d t1 t2 :
  store !! id = Some d →
  pause t2 id (snd (pause t1 id store))
  = (fst (pause t1 id store), snd (pause t1 id store)).
Proof.
  intros Hd. rewrite (pause_Some t1 id store d Hd). cbv zeta. simpl.
  set (d2 := mk _ _ _ _ paused _).
  rewrite (pause_Some t2 id _ d2) by apply lookup_insert_eq.
  cbv zeta. unfold syncIfRunning. simpl.
  now rewrite insert_insert_eq.
Qed.

Lemma pause_idempotent_witness :
  let store := sampleStore "sim_1" 1000 (JS.Finite 2) 50 in
  store !! "sim_1" = Some (mk "sim_1" 1000 1000 2 running 50) ∧
  pause 900 "sim_1" (snd (pause 80 "sim_1" store))
  = (fst (pause 80 "sim_1" store), snd (pause 80 "sim_1" store)).
Proof.
  intros store. split; [reflexivity|].
  exact (pause_idempotent "sim_1" store _ 80 900 eq_refl).
Defined.













(** The clip of a time plus a credit that is not negative is not below
    the time. *)
Lemma timeClip_ge (c : Z) (q : Q) :
  (0 <= q)%Q → c <= JS.timeClip (inject_Z c + q).
Proof.
  intros Hq.
  pose proof (timeClip_bound (inject_Z c + q)) as [Hl _].
  assert (Hlt : (inject_Z c - 1 < inject_Z (JS.timeClip (inject_Z c + q)))%Q).
  { eapply Qle_lt_trans; [|exact Hl].
    apply Qplus_le_l. rewrite <- (Qplus_0_r (inject_Z c)) at 1.
    apply Qplus_le_r. exact Hq. }
  revert Hlt. unfold Qlt, Qminus, Qplus, Qopp, inject_Z. simpl. lia.
Qed.

Lemma syncIfRunning_monotone now d :
  lastUpdateRealTime d <= now → (0 <= timeScale d)%Q →
  currentTime d <= currentTime (syncIfRunning now d).
Proof.
  intros Hnow Hscale. unfold syncIfRunning.
  destruct (status d); [|lia]. simpl.
  apply timeClip_ge. apply Qmult_le_0_compat; [|exact Hscale].
  unfold Qle. simpl. lia.
Qed.

(** X11: apart from [reset] and [setCurrentTime], no operation moves
    the current time backward: when the wall clock an operation reads
    is not before the last synchronisation and the scale is not
    negative, the current time stored afterwards, and the one
    returned, are at least the current time stored before. *)
Theorem current_time_never_goes_back op id (store : Store) d now :
  store !! id = Some d →
  rewinds op = false →
  firstReading op = Some now →
  lastUpdateRealTime d <= now →
  (0 <= timeScale d)%Q →
  (∀ d', snd (perform op id store) !! id = Some d' →
         currentTime d <= currentTime d') ∧
  (∀ dto, fst (perform op id store) = Ok dto →
          currentTime d <= TimeInfoDto.currentTime dto).
Proof.
  intros Hd Hrew Hread Hnow Hscale.
  pose proof (syncIfRunning_monotone now d Hnow Hscale) as Hsync.
  destruct op as [t|t t' n|t|t| |t ts]; try discriminate;
    injection Hread as ->; unfold_operation;
    rewrite (getTimeControlData_Some _ _ _ Hd); cbv zeta.
  - simpl. rewrite lookup_insert_eq.
    split; [intros d' [= <-]|intros dto [= <-]]; exact Hsync.
  - destruct (validateTimeScale n); simpl; rewrite lookup_insert_eq;
      (split; [intros d' [= <-]|intros dto [= <-]]); try exact Hsync.
  - simpl. rewrite lookup_insert_eq.
    split; [intros d' [= <-]|intros dto [= <-]]; exact Hsync.
  - simpl. rewrite lookup_insert_eq.
    split; [intros d' [= <-]|intros dto [= <-]]; simpl; lia.
Qed.

Lemma current_time_never_goes_back_witness :
  let store := sampleStore "sim_1" 1000 (JS.Finite 2) 50 in
  store !! "sim_1" = Some (mk "sim_1" 1000 1000 2 running 50) ∧
  ∀ dto, fst (perform (Pause 80) "sim_1" store) = Ok dto →
         1000 <= TimeInfoDto.currentTime dto.
Proof.
  intros store. split; [reflexivity|].
  exact (proj2 (current_time_never_goes_back (Pause 80) "sim_1" store
                  (mk "sim_1" 1000 1000 2 running 50) 80
                  eq_refl eq_refl eq_refl ltac:(simpl; lia) ltac:(discriminate))).
Defined.



End ClockOperations.

(** ** More on the historical replayer *)

Section HistoricalMore.

Import HistoricalService ReplaySpec.

Local Open Scope Z_scope.

Lemma toInt32_range z : - 2^31 <= JS.toInt32 z < 2^31.
Proof.
  unfold JS.toInt32.
  pose proof (Z.mod_pos_bound (z + 2^31) (2^32) ltac:(lia)). lia.
Qed.

Lemma hashStep_range hash char :
  - 2^31 <= hashStep hash char < 2^31.
Proof. unfold hashStep, JS.and32. apply toInt32_range. Qed.

Lemma fold_hashStep_range codes : ∀ acc,
  - 2^31 <= acc < 2^31 →
  - 2^31 <= fold_left hashStep codes acc < 2^31.
Proof.
  induction codes as [|c rest IH]; intros acc Hacc; [exact Hacc|].
  simpl. apply IH. apply hashStep_range.
Qed.

(** X13: the hash of a string is an integer between 0 and 2^31
    inclusive (the absolute value of a signed 32-bit integer), in the
    historical service and in the scenario service alike; the empty
    string hashes to 0. *)
Theorem simpleHash_range str :
  0 <= simpleHash str <= 2^31 ∧
  0 <= ScenariosService.simpleHash str <= 2^31 ∧
  ScenariosService.simpleHash str = simpleHash str ∧
  simpleHash "" = 0.
Proof.
  assert (H : 0 <= simpleHash str <= 2^31).
  { unfold simpleHash.
    pose proof (fold_hashStep_range (JS.charCodes str) 0 ltac:(lia)). lia. }
  repeat split; try apply H; reflexivity.
Qed.

Lemma priceBand_inBand token hash :
  0 <= hash → inBand token (priceBand token hash).
Proof.
  intros Hh. unfold inBand, priceBand, mentions.
  pose proof (Z.rem_bound_pos hash 20000 Hh ltac:(lia)).
  pose proof (Z.rem_bound_pos hash 2000 Hh ltac:(lia)).
  pose proof (Z.rem_bound_pos hash 5 Hh ltac:(lia)).
  pose proof (Z.rem_bound_pos hash 1000 Hh ltac:(lia)).
  destruct (JS.includes (JS.toLowerCase token) "btc").
  { unfold Qle, inject_Z. simpl. repeat split; lia. }
  destruct (JS.includes (JS.toLowerCase token) "eth").
  { unfold Qle, inject_Z. simpl. repeat split; lia. }
  destruct (JS.includes (JS.toLowerCase token) "usdc"
            || JS.includes (JS.toLowerCase token) "usdt");
    unfold Qle, Qplus, Qdiv, Qmult, Qinv, inject_Z; simpl; split; lia.
Qed.

(** X14: base prices fall in four bands chosen by the token name, not
    by its case, "btc" taking precedence over "eth" and both over the
    stablecoin names: a whole number from 30000 to 49999 for a BTC-like
    token, a whole number from 1500 to 3499 for an ETH-like one, 0.98
    to 1.02 for USDC/USDT, 0.1 to 100 for anything else.  This holds
    for the historical price at any valid timestamp (and there is no
    price at an invalid one) and for the scenario base price. *)
Theorem base_prices_in_band token :
  (∀ t, ∃ p, getBasePriceForToken token (JS.TimeValue t) = Some p ∧
             inBand token p) ∧
  getBasePriceForToken token JS.InvalidDate = None ∧
  inBand token (ScenariosService.getBasePriceForToken token).
Proof.
  split; [|split].
  - intros t.
    destruct (getBasePriceForToken_valid token t) as (iso & _ & ->).
    eexists. split; [reflexivity|].
    apply priceBand_inBand. apply Z.abs_nonneg.
  - reflexivity.
  - apply (priceBand_inBand token (ScenariosService.simpleHash token)).
    apply Z.abs_nonneg.
Qed.






Arguments JS.toISOString : simpl never.







End HistoricalMore.

(** ** More on the scenario generator *)

Section ScenariosMore.

Import ScenariosService ScenarioSpec.
Import Parameters.

Local Open Scope R_scope.

Ltac num_cbv :=
  cbv [Num.add Num.sub Num.mul Num.div Num.neg Num.min Num.max Num.sin
       Num.exp Num.sqr Num.floor Num.lift1 Num.lift2 Num.fin Num.NaN
       Num.ofField] in *.

Lemma orDefault_number field d : d ≠ 0 →
  ∃ x, Num.orDefault field d = Some x ∧ x ≠ 0.
Proof.
  intros Hd.
  destruct (orDefault_cases field d) as [[-> _]|(x & -> & _ & Hx)]; eauto.
Qed.

Lemma elem_of_validScenarios scenarioType :
  scenarioType ∈ validScenarios → ∃ sc, scenarioOf scenarioType = Some sc.
Proof.
  intros Hin. destruct (scenarioOf scenarioType) as [sc|] eqn:E; [eauto|].
  now apply scenarioOf_None in E.
Qed.

Lemma validScenarios_not_inherited scenarioType :
  scenarioType ∈ validScenarios → scenarioType ∉ inheritedProperties.
Proof.
  unfold validScenarios. intros Hin.
  repeat (apply elem_of_cons in Hin as [->|Hin];
          [apply (bool_decide_eq_false_1 _); reflexivity|]).
  now apply elem_of_nil in Hin.
Qed.

Lemma scenarioOf_nameOf sc : scenarioOf (nameOf sc) = Some sc.
Proof. now destruct sc. Qed.

Lemma scenarioOf_Some scenarioType sc :
  scenarioOf scenarioType = Some sc → scenarioType = nameOf sc.
Proof.
  unfold scenarioOf.
  repeat (match goal with
          | |- context [String.eqb ?s ?c] =>
              destruct (String.eqb_spec s c) as [->|?];
              [now intros [= <-]|]
          end).
  discriminate.
Qed.

Lemma configs_duration sc ps :
  ∃ x, Config.duration (configs sc ps) = Some x ∧ x ≠ 0.
Proof.
  destruct sc; simpl;
    try (apply orDefault_number; lra);
    (eexists; split; [reflexivity|lra]).
Qed.

Lemma catalogue_entry sc ps :
  ∃ names,
    ScenarioInfo.mk (nameOf sc) (Config.description (configs sc ps)) names
                    (Config.difficulty (configs sc ps))
    ∈ getAvailableScenarios.
Proof.
  unfold getAvailableScenarios.
  destruct sc; simpl; eexists; rewrite !elem_of_cons; eauto 10.
Qed.

(** X17: the catalogue and the validator agree.  The types
    [getAvailableScenarios] lists are exactly the ones [initialize]
    accepts; for a listed type [initialize] answers with the
    description and difficulty the catalogue shows and a duration that
    is a number other than zero; any other type is refused with
    'Invalid scenario type'. *)
Theorem catalogue_matches_initialize scenarioType parameters simulationId :
  let result := initialize (ScenarioInitParamsDto.mk scenarioType parameters
                                                     simulationId) in
  ScenarioInfo.type <$> getAvailableScenarios = validScenarios ∧
  (scenarioType ∈ validScenarios →
   ∃ info dto x,
     info ∈ getAvailableScenarios ∧
     ScenarioInfo.type info = scenarioType ∧
     result = inr dto ∧
     ScenarioDataSourceDto.scenarioType dto = scenarioType ∧
     ScenarioDataSourceDto.description dto = Some (ScenarioInfo.description info) ∧
     ScenarioDataSourceDto.difficulty dto = Some (ScenarioInfo.difficulty info) ∧
     ScenarioDataSourceDto.duration dto = Some x ∧ x ≠ 0) ∧
  ((scenarioType ∉ validScenarios) →
   result = inl (InvalidScenarioType scenarioType)).
Proof.
  intros result. split; [reflexivity|]. split.
  - intros Hin. unfold result, initialize, validateScenarioType.
    cbn [ScenarioInitParamsDto.scenarioType ScenarioInitParamsDto.parameters
         ScenarioInitParamsDto.simulationId].
    rewrite bool_decide_eq_true_2 by exact Hin.
    destruct (elem_of_validScenarios scenarioType Hin) as [sc Hsc].
    unfold getScenarioConfig. rewrite Hsc.
    apply scenarioOf_Some in Hsc. subst scenarioType.
    destruct (configs_duration sc (orEmpty parameters)) as (x & Hx & Hx0).
    destruct (catalogue_entry sc (orEmpty parameters)) as (names & Hentry).
    eexists _, _, x. split; [exact Hentry|].
    cbn [durationOf descriptionOf difficultyOf ScenarioInfo.type
         ScenarioInfo.description ScenarioInfo.difficulty
         ScenarioDataSourceDto.scenarioType ScenarioDataSourceDto.description
         ScenarioDataSourceDto.difficulty ScenarioDataSourceDto.duration].
    repeat (split; [reflexivity|]). split; [exact Hx|exact Hx0].
  - intros Hnin. unfold result, initialize, validateScenarioType.
    cbn [ScenarioInitParamsDto.scenarioType].
    now rewrite bool_decide_eq_false_2.
Qed.

Lemma catalogue_matches_initialize_witness :
  "flash_crash" ∈ validScenarios ∧
  ∃ dto,
    initialize (ScenarioInitParamsDto.mk "flash_crash" None "sim_1") = inr dto ∧
    ScenarioDataSourceDto.difficulty dto = Some "expert"%string ∧
    ScenarioDataSourceDto.duration dto = Some (4 * 60 * 60).
Proof.
  assert (Hin : "flash_crash" ∈ validScenarios).
  { apply (bool_decide_eq_true_1 _). reflexivity. }
  split; [exact Hin|].
  destruct (proj1 (proj2 (catalogue_matches_initialize "flash_crash" None "sim_1"))
              Hin) as (info & dto & x & _ & _ & Hinit & _).
  exists dto. split; [exact Hinit|].
  injection Hinit as <-. split; reflexivity.
Defined.

Lemma getScenarioConfig_object scenarioType ps :
  scenarioType ∉ inheritedProperties →
  ∃ sc, getScenarioConfig scenarioType ps = ConfigObject (configs sc ps).
Proof.
  intros Hi. unfold getScenarioConfig.
  destruct (scenarioOf scenarioType) as [sc|]; [eauto|].
  rewrite bool_decide_eq_false_2 by exact Hi. eauto.
Qed.

(** X18: the progress of a snapshot.  For a scenario type that is not
    an inherited property name, [getScenarioData] reports a progress
    that is a number in [0, 1] whenever both dates parse (0 up to the
    start time and 1 from the end of the scenario on, when its
    duration is positive) and NaN when either date does not parse. *)
Theorem progress_is_a_fraction
    now rnd k scenarioType parameters startTime currentTime tokens :
  scenarioType ∉ inheritedProperties →
  let progress :=
    ScenarioMarketDataDto.progress
      (fst (getScenarioData now rnd k
              (ScenarioDataQueryDto.mk scenarioType parameters
                                       startTime currentTime tokens))) in
  (startTime = JS.InvalidDate ∨ currentTime = JS.InvalidDate →
   progress = Num.NaN) ∧
  (∀ s c, startTime = JS.TimeValue s → currentTime = JS.TimeValue c →
     ∃ p duration,
       durationOf (getScenarioConfig scenarioType (orEmpty parameters))
       = Some duration ∧
       progress = Some p ∧ 0 <= p <= 1 ∧
       (0 < duration → (c <= s)%Z → p = 0) ∧
       (0 < duration → IZR s + duration * 1000 <= IZR c → p = 1)).
Proof.
  intros Hi progress. unfold progress. rewrite getScenarioData_eq.
  rewrite (proj1 (proj2 (generateMarketData_fields _ _ _ _ _ _ _))).
  destruct (getScenarioConfig_object scenarioType (orEmpty parameters) Hi)
    as [sc ->].
  destruct (configs_duration sc (orEmpty parameters)) as (dur & Hdur & Hdur0).
  unfold progressOf. cbn [durationOf]. rewrite Hdur. split.
  - intros [-> | ->]; cbn [getTime]; num_cbv; [now destruct (getTime currentTime)|].
    reflexivity.
  - intros s c -> ->. cbn [getTime]. num_cbv.
    set (ratio := (IZR c - IZR s) / (dur * 1000)).
    exists (Rmin 1 (Rmax 0 ratio)), dur. split; [reflexivity|].
    split; [reflexivity|]. split; [|split].
    + split; [apply Rmin_glb; [lra|apply Rmax_l]|apply Rmin_l].
    + intros Hpos Hcs. apply IZR_le in Hcs.
      assert (Hr : ratio * (dur * 1000) = IZR c - IZR s)
        by (unfold ratio; field; lra).
      assert (ratio <= 0) by nra.
      rewrite Rmax_left by lra. rewrite Rmin_right by lra. reflexivity.
    + intros Hpos Hend.
      assert (Hr : ratio * (dur * 1000) = IZR c - IZR s)
        by (unfold ratio; field; lra).
      assert (1 <= ratio) by nra.
      rewrite Rmax_right by lra. rewrite Rmin_left by lra. reflexivity.
Qed.

(** A bull market of the default seven days, queried after three and a
    half: the progress is one half. *)
Lemma progress_is_a_fraction_witness :
  ("bull_market" ∉ inheritedProperties) ∧
  ∃ p, ScenarioMarketDataDto.progress
         (fst (getScenarioData 0 noJitter 0
                 (queryAt "bull_market" None 302400000 ["ETH"]))) = Some p ∧
       0 <= p <= 1.
Proof.
  assert (Hi : "bull_market" ∉ inheritedProperties).
  { apply (bool_decide_eq_false_1 _). reflexivity. }
  split; [exact Hi|].
  destruct (proj2 (progress_is_a_fraction 0%Z noJitter 0 "bull_market" None
                     (JS.TimeValue 0) (JS.TimeValue 302400000) ["ETH"] Hi)
              0%Z 302400000%Z eq_refl eq_refl)
    as (p & dur & _ & Hp & Hrange & _).
  exists p. split; [exact Hp|exact Hrange].
Defined.

Lemma exp_square_bounds a x : 0 <= a → 0 < exp (- a * x * x) <= 1.
Proof.
  intros Ha. split; [apply exp_pos|].
  apply exp_nonpos_le_1.
  assert (0 <= a * (x * x)) by (apply Rmult_le_pos; [exact Ha|nra]).
  lra.
Qed.

(** X19: whatever the scenario type, recognised or not, at a progress
    in [0, 1] the three aggregate indices (volatility, liquidity,
    sentiment) are numbers between 10 and 100. *)
Theorem market_metrics_bounded scenarioType progress :
  0 <= progress <= 1 →
  metricsBetween 10 100 (marketMetricsOf scenarioType (Num.fin progress)).
Proof.
  intros Hp. unfold marketMetricsOf, metricsBetween, between.
  pose proof (SIN_bound (progress * PI)).
  pose proof (SIN_bound (progress * 5 * PI)).
  pose proof (SIN_bound (progress * 8 * PI)).
  pose proof (SIN_bound (progress * 10 * PI)).
  pose proof (SIN_bound (progress * 15 * PI)).
  pose proof (SIN_bound (progress * 20 * PI)).
  destruct (scenarioOf scenarioType) as [[]|].
  - cbn [MarketMetrics.volatilityIndex MarketMetrics.liquidityIndex
         MarketMetrics.sentimentIndex]. num_cbv.
    repeat split; eexists; (split; [reflexivity|]); lra.
  - cbn [MarketMetrics.volatilityIndex MarketMetrics.liquidityIndex
         MarketMetrics.sentimentIndex]. num_cbv.
    repeat split; eexists; (split; [reflexivity|]); lra.
  - destruct (crashPoint_bounds progress Hp) as (c & -> & Hc).
    cbn [MarketMetrics.volatilityIndex MarketMetrics.liquidityIndex
         MarketMetrics.sentimentIndex]. num_cbv.
    pose proof (exp_square_bounds 5 (c - 0.5) ltac:(lra)) as He.
    replace (- (5) * (c - 0.5) * (c - 0.5)) with (-5 * (c - 0.5) * (c - 0.5))
      in He by lra.
    repeat split; eexists; (split; [reflexivity|]); lra.
  - cbn [MarketMetrics.volatilityIndex MarketMetrics.liquidityIndex
         MarketMetrics.sentimentIndex]. num_cbv.
    repeat split; eexists; (split; [reflexivity|]); lra.
  - cbn [MarketMetrics.volatilityIndex MarketMetrics.liquidityIndex
         MarketMetrics.sentimentIndex]. num_cbv.
    repeat split; eexists; (split; [reflexivity|]); lra.
  - cbn [MarketMetrics.volatilityIndex MarketMetrics.liquidityIndex
         MarketMetrics.sentimentIndex]. num_cbv.
    repeat split; eexists; (split; [reflexivity|]); lra.
  - unfold flashCrashPhase, flashCrashRecovery, Num.ltb.
    cbn [MarketMetrics.volatilityIndex MarketMetrics.liquidityIndex
         MarketMetrics.sentimentIndex]. num_cbv.
    destruct (Rlt_dec progress 0.1); destruct (Rlt_dec progress 0.3);
      try lra;
      match goal with
      | |- context [exp (?a * ?x * ?x)] =>
          pose proof (exp_square_bounds 10 x ltac:(lra)) as He;
          replace (- (10) * x * x) with (a * x * x) in He by lra
      end;
      repeat split; eexists; (split; [reflexivity|]); lra.
  - cbn [MarketMetrics.volatilityIndex MarketMetrics.liquidityIndex
         MarketMetrics.sentimentIndex]. num_cbv.
    repeat split; eexists; (split; [reflexivity|]); lra.
Qed.

Lemma market_metrics_bounded_witness :
  0 <= 0.25 <= 1 ∧
  metricsBetween 10 100 (marketMetricsOf "flash_crash" (Num.fin 0.25)).
Proof.
  assert (H : 0 <= 0.25 <= 1) by lra.
  split; [exact H|].
  exact (market_metrics_bounded "flash_crash" 0.25 H).
Defined.

Lemma unit_product a b : 0 <= a <= 1 → 0 <= b <= 1 → 0 <= a * b <= 1.
Proof. intros Ha Hb. split; nra. Qed.

Lemma signed_product a b : 0 <= a <= 1 → -1 <= b <= 1 → -1 <= a * b <= 1.
Proof. intros Ha Hb. split; nra. Qed.

Lemma getVolumeModifier_bounds scenarioType p progress :
  within 0 1 (intensity p) → 0 <= progress <= 1 →
  between 0.3 7 (getVolumeModifier scenarioType p (Num.fin progress)).
Proof.
  intros Hi Hp. unfold getVolumeModifier, between.
  destruct (orDefault_within (intensity p) 0.5 1 Hi ltac:(lra)) as (i & -> & Hir).
  assert (Hi01 : 0 <= i <= 1) by lra.
  pose proof (unit_product i progress Hi01 Hp) as Hip.
  destruct (scenarioOf scenarioType) as [[]|].
  - num_cbv. eexists. split; [reflexivity|]. lra.
  - num_cbv. eexists. split; [reflexivity|].
    pose proof (unit_product (i * progress) (1 - progress) Hip ltac:(lra)). lra.
  - destruct (crashPoint_bounds progress Hp) as (c & -> & Hc). num_cbv.
    pose proof (exp_square_bounds 10 (c - 0.5) ltac:(lra)) as He.
    replace (- (10) * (c - 0.5) * (c - 0.5)) with (-10 * (c - 0.5) * (c - 0.5))
      in He by lra.
    eexists. split; [reflexivity|].
    pose proof (unit_product i _ Hi01 (conj (Rlt_le _ _ (proj1 He)) (proj2 He))).
    lra.
  - num_cbv. eexists. split; [reflexivity|].
    pose proof (SIN_bound (progress * 10 * PI)) as Hs.
    assert (0 <= sin (progress * 10 * PI) * sin (progress * 10 * PI) <= 1)
      by (split; nra).
    lra.
  - num_cbv. eexists. split; [reflexivity|].
    pose proof (signed_product i _ Hi01 (SIN_bound (progress * 20 * PI))). lra.
  - num_cbv. eexists. split; [reflexivity|]. lra.
  - destruct (flashCrashPhase_bounds progress Hp) as (ph & -> & Hph).
    destruct (flashCrashRecovery_bounds progress Hp) as (rc & -> & Hrc).
    num_cbv.
    pose proof (exp_square_bounds 10 (ph - 0.5) ltac:(lra)) as He1.
    replace (- (10) * (ph - 0.5) * (ph - 0.5)) with (-10 * (ph - 0.5) * (ph - 0.5))
      in He1 by lra.
    pose proof (exp_square_bounds 10 (rc - 0.3) ltac:(lra)) as He2.
    replace (- (10) * (rc - 0.3) * (rc - 0.3)) with (-10 * (rc - 0.3) * (rc - 0.3))
      in He2 by lra.
    eexists. split; [reflexivity|].
    pose proof (unit_product i _ Hi01 (conj (Rlt_le _ _ (proj1 He1)) (proj2 He1))).
    pose proof (unit_product i _ Hi01 (conj (Rlt_le _ _ (proj1 He2)) (proj2 He2))).
    lra.
  - num_cbv. eexists. split; [reflexivity|]. lra.
Qed.

Lemma getDepthModifier_bounds scenarioType p progress :
  within 0 1 (intensity p) → 0 <= progress <= 1 →
  between 0.1 1.7 (getDepthModifier scenarioType p (Num.fin progress)).
Proof.
  intros Hi Hp. unfold getDepthModifier, between.
  destruct (orDefault_within (intensity p) 0.5 1 Hi ltac:(lra)) as (i & -> & Hir).
  assert (Hi01 : 0 <= i <= 1) by lra.
  pose proof (unit_product i progress Hi01 Hp) as Hip.
  destruct (scenarioOf scenarioType) as [[]|].
  - num_cbv. eexists. split; [reflexivity|]. lra.
  - num_cbv. eexists. split; [reflexivity|]. lra.
  - destruct (crashPoint_bounds progress Hp) as (c & -> & Hc). num_cbv.
    pose proof (exp_square_bounds 5 (c - 0.5) ltac:(lra)) as He.
    replace (- (5) * (c - 0.5) * (c - 0.5)) with (-5 * (c - 0.5) * (c - 0.5))
      in He by lra.
    eexists. split; [reflexivity|].
    pose proof (unit_product i _ Hi01 (conj (Rlt_le _ _ (proj1 He)) (proj2 He))).
    lra.
  - num_cbv. eexists. split; [reflexivity|].
    pose proof (SIN_bound (progress * 10 * PI)). lra.
  - num_cbv. eexists. split; [reflexivity|].
    pose proof (signed_product i _ Hi01 (SIN_bound (progress * 15 * PI))). lra.
  - num_cbv. eexists. split; [reflexivity|]. lra.
  - destruct (flashCrashPhase_bounds progress Hp) as (ph & -> & Hph).
    destruct (flashCrashRecovery_bounds progress Hp) as (rc & -> & Hrc).
    num_cbv. eexists. split; [reflexivity|].
    pose proof (unit_product i ph Hi01 Hph).
    pose proof (unit_product i rc Hi01 Hrc).
    lra.
  - num_cbv. eexists. split; [reflexivity|]. lra.
Qed.

(** X20: trading never dries up entirely.  For any scenario type,
    recognised or not, an intensity that (when supplied) lies in
    [0, 1] and a progress in [0, 1], the volume modifier is a number
    between 0.3 and 7 and the depth modifier a number between 0.1 and
    1.7; so every volume in the snapshot is a whole number between
    300,000 and 7,000,000. *)
Theorem volume_and_depth_bounded now rnd k scenarioType p progress tokens :
  within 0 1 (intensity p) →
  0 <= progress <= 1 →
  between 0.3 7 (getVolumeModifier scenarioType p (Num.fin progress)) ∧
  between 0.1 1.7 (getDepthModifier scenarioType p (Num.fin progress)) ∧
  ∀ token td,
    ScenarioMarketDataDto.tokens
      (fst (generateMarketData now rnd k scenarioType p (Num.fin progress) tokens))
      !! token = Some td →
    ∃ v : Z, TokenData.volume td = Some (IZR v) ∧ (300000 <= v <= 7000000)%Z.
Proof.
  intros Hi Hp.
  pose proof (getVolumeModifier_bounds scenarioType p progress Hi Hp) as Hvol.
  split; [exact Hvol|]. split; [now apply getDepthModifier_bounds|].
  intros token td.
  destruct (generateMarketData_lookup now rnd k scenarioType p
              (Num.fin progress) tokens token)
    as [[Hnin ->]|[Hin (k' & ->)]]; [discriminate|].
  intros [= <-]. cbn [tokenData TokenData.volume].
  destruct Hvol as (vm & -> & Hvm). num_cbv.
  eexists. split; [reflexivity|].
  split.
  - apply Zfloor_lub. lra.
  - apply le_IZR. eapply Rle_trans; [apply Zfloor_bound|]. lra.
Qed.

Lemma volume_and_depth_bounded_witness :
  within 0 1 (intensity (intensityOnly 1)) ∧
  between 0.3 7 (getVolumeModifier "liquidity_crisis" (intensityOnly 1) (Num.fin 1)).
Proof.
  assert (Hi : within 0 1 (intensity (intensityOnly 1))).
  { intros x [= <-]. lra. }
  split; [exact Hi|].
  exact (proj1 (volume_and_depth_bounded 0%Z noJitter 0 "liquidity_crisis"
                  (intensityOnly 1) 1 [] Hi ltac:(lra))).
Defined.

(** X21: the shape of an order book.  Around a positive price, with a
    positive depth modifier and draws that are not negative, each side
    has exactly the number of levels asked for; level [i] of the asks
    sits [(i + 1) / 1000] of the price above it and level [i] of the
    bids as far below it, so asks rise and bids fall with the level
    and the bids stay positive for fewer than a thousand levels; the
    amounts are positive on the first seven levels and negative from
    the eighth on. *)
Theorem order_book_shape rnd k price levels dm i :
  (∀ n, 0 <= rnd n) → 0 < price → 0 < dm → (i < levels)%nat →
  length (generateOrderBook rnd k ask (Num.fin price) levels (Num.fin dm)) = levels ∧
  length (generateOrderBook rnd k bid (Num.fin price) levels (Num.fin dm)) = levels ∧
  ∃ askPrice askAmount bidPrice bidAmount,
    generateOrderBook rnd k ask (Num.fin price) levels (Num.fin dm) !! i
    = Some (OrderLevel.mk (Some askPrice) (Some askAmount)) ∧
    generateOrderBook rnd k bid (Num.fin price) levels (Num.fin dm) !! i
    = Some (OrderLevel.mk (Some bidPrice) (Some bidAmount)) ∧
    askPrice = price + (INR i + 1) / 1000 * price ∧
    bidPrice = price - (INR i + 1) / 1000 * price ∧
    bidPrice < price < askPrice ∧
    ((i < 999)%nat → 0 < bidPrice) ∧
    ((i <= 6)%nat → 0 < askAmount ∧ 0 < bidAmount) ∧
    ((7 <= i)%nat → askAmount < 0 ∧ bidAmount < 0).
Proof.
  intros Hrnd Hprice Hdm Hi.
  split; [apply generateOrderBook_length|].
  split; [apply generateOrderBook_length|].
  rewrite !generateOrderBook_lookup by exact Hi.
  unfold orderLevel. num_cbv.
  eexists _, _, _, _. split; [reflexivity|]. split; [reflexivity|].
  pose proof (pos_INR i) as Hi0.
  pose proof (Hrnd (k + i)%nat) as Hr.
  split; [lra|]. split; [lra|].
  assert (Hoff : 0 < (INR i + 1) * 0.001 * price) by nra.
  split; [lra|]. split.
  - intros H999. apply lt_INR in H999. simpl in H999.
    replace (INR 999) with 999 in H999 by (rewrite INR_IZR_INZ; reflexivity).
    nra.
  - split.
    + intros H6. apply le_INR in H6.
      replace (INR 6) with 6 in H6 by (rewrite INR_IZR_INZ; reflexivity).
      assert (0 < 1000 - INR i * 150) by lra.
      assert (0 < dm * (1000 - INR i * 150)) by nra.
      split; nra.
    + intros H7. apply le_INR in H7.
      replace (INR 7) with 7 in H7 by (rewrite INR_IZR_INZ; reflexivity).
      assert (1000 - INR i * 150 < 0) by lra.
      assert (dm * (1000 - INR i * 150) < 0) by nra.
      split; nra.
Qed.

(** The fifth level of a book around 100 at depth 2 without jitter:
    ask at 100.5, bid at 99.5, 800 on each side. *)
Lemma order_book_shape_witness :
  ∃ askPrice askAmount bidPrice bidAmount,
    generateOrderBook noJitter 0 ask (Num.fin 100) 5 (Num.fin 2) !! 4%nat
    = Some (OrderLevel.mk (Some askPrice) (Some askAmount)) ∧
    generateOrderBook noJitter 0 bid (Num.fin 100) 5 (Num.fin 2) !! 4%nat
    = Some (OrderLevel.mk (Some bidPrice) (Some bidAmount)) ∧
    bidPrice < 100 < askPrice ∧ 0 < askAmount ∧ 0 < bidAmount.
Proof.
  destruct (order_book_shape noJitter 0 100 5 2 4
              ltac:(intros n; unfold noJitter; lra) ltac:(lra) ltac:(lra)
              ltac:(lia))
    as (_ & _ & ap & aa & bp & ba & Ha & Hb & _ & _ & Hspread & _ & Hpos & _).
  exists ap, aa, bp, ba. split; [exact Ha|]. split; [exact Hb|].
  split; [exact Hspread|]. apply Hpos. lia.
Defined.

(** X22: a flash crash needs its recovery speed.  The price formula
    of flash_crash reads [recovery_speed] without a default, so when
    the field is missing the price modifier is NaN at every progress
    and for every intensity, and every price in the snapshot is NaN. *)
Theorem flash_crash_without_recovery_speed now rnd k p progress tokens :
  recovery_speed p = None →
  getPriceModifier "flash_crash" p progress = Num.NaN ∧
  ∀ token td,
    ScenarioMarketDataDto.tokens
      (fst (generateMarketData now rnd k "flash_crash" p progress tokens))
      !! token = Some td →
    TokenData.price td = Num.NaN.
Proof.
  intros Hrs.
  assert (Hmod : getPriceModifier "flash_crash" p progress = Num.NaN).
  { unfold getPriceModifier.
    change (scenarioOf "flash_crash") with (Some flash_crash). cbv zeta.
    rewrite Hrs. unfold Num.ofField.
    destruct (orDefault_cases (intensity p) 0.5) as [[-> _]|(x & -> & _)];
      num_cbv;
      now destruct (flashCrashPhase progress), (flashCrashRecovery progress). }
  split; [exact Hmod|].
  intros token td.
  destruct (generateMarketData_lookup now rnd k "flash_crash" p progress
              tokens token)
    as [[Hnin ->]|[Hin (k' & ->)]]; [discriminate|].
  intros [= <-]. cbn [tokenData TokenData.price]. now rewrite Hmod.
Qed.

Lemma flash_crash_without_recovery_speed_witness :
  recovery_speed (intensityOnly 0.9) = None ∧
  getPriceModifier "flash_crash" (intensityOnly 0.9) (Num.fin 0.05) = Num.NaN.
Proof.
  split; [reflexivity|].
  exact (proj1 (flash_crash_without_recovery_speed 0%Z noJitter 0
                  (intensityOnly 0.9) (Num.fin 0.05) [] eq_refl)).
Defined.

Lemma orDefault_zero d : Num.orDefault (Some 0) d = Num.orDefault None d.
Proof. simpl. destruct (Req_dec_T 0 0); [reflexivity|contradiction]. Qed.

Lemma tokenLoop_ext rnd scenarioType p q progress tokens :
  (∀ k token, tokenData rnd k scenarioType p progress token
              = tokenData rnd k scenarioType q progress token) →
  ∀ k acc, tokenLoop rnd k scenarioType p progress tokens acc
           = tokenLoop rnd k scenarioType q progress tokens acc.
Proof.
  intros Hdata. induction tokens as [|tok rest IH]; intros k acc; [reflexivity|].
  cbn [tokenLoop]. rewrite Hdata. apply IH.
Qed.

(** X23: an intensity of 0 cannot be chosen.  Every formula reads the
    intensity as [parameters.intensity || 0.5], so a supplied 0 is
    replaced by the default: the price, volume and depth modifiers, the
    24 h price change and with them the whole snapshot are the same
    with [intensity: 0] as with no intensity at all. *)
Theorem zero_intensity_is_default now rnd k scenarioType p progress tokens random :
  let zero := withIntensity p (Some 0) in
  let absent := withIntensity p None in
  getPriceModifier scenarioType zero progress
  = getPriceModifier scenarioType absent progress ∧
  getVolumeModifier scenarioType zero progress
  = getVolumeModifier scenarioType absent progress ∧
  getDepthModifier scenarioType zero progress
  = getDepthModifier scenarioType absent progress ∧
  getPriceChange random scenarioType zero progress
  = getPriceChange random scenarioType absent progress ∧
  generateMarketData now rnd k scenarioType zero progress tokens
  = generateMarketData now rnd k scenarioType absent progress tokens.
Proof.
  intros zero absent.
  assert (Hp : getPriceModifier scenarioType zero progress
               = getPriceModifier scenarioType absent progress).
  { unfold getPriceModifier, zero, absent, withIntensity.
    cbn [intensity recovery_speed range_width direction_bias].
    now rewrite orDefault_zero. }
  assert (Hv : getVolumeModifier scenarioType zero progress
               = getVolumeModifier scenarioType absent progress).
  { unfold getVolumeModifier, zero, absent, withIntensity.
    cbn [intensity recovery_speed range_width direction_bias].
    now rewrite orDefault_zero. }
  assert (Hd : getDepthModifier scenarioType zero progress
               = getDepthModifier scenarioType absent progress).
  { unfold getDepthModifier, zero, absent, withIntensity.
    cbn [intensity recovery_speed range_width direction_bias].
    now rewrite orDefault_zero. }
  assert (Hc : ∀ r, getPriceChange r scenarioType zero progress
                    = getPriceChange r scenarioType absent progress).
  { intros r. unfold getPriceChange, zero, absent, withIntensity.
    cbn [intensity recovery_speed range_width direction_bias].
    now rewrite orDefault_zero. }
  repeat (split; [auto|]).
  unfold generateMarketData.
  rewrite (tokenLoop_ext rnd scenarioType zero absent progress tokens);
    [reflexivity|].
  intros k' token. unfold tokenData. now rewrite Hp, Hv, Hd, Hc.
Qed.

(** X24: the direction of the trend scenarios.  With parameters in
    their ranges and a progress in [0, 1], the price modifier of a bull
    market is between 1 and 2 (prices at or above the base price), the
    one of a bear market between 0.3 and 1, the one of a market crash
    between 0 and 1, and the one of a flash crash (its recovery speed
    supplied) between 0.3 and 1: a crash never recovers beyond the
    price it started from. *)
Theorem trend_directions p progress :
  parametersInRange p →
  0 <= progress <= 1 →
  between 1 2 (getPriceModifier "bull_market" p (Num.fin progress)) ∧
  between 0.3 1 (getPriceModifier "bear_market" p (Num.fin progress)) ∧
  between 0 1 (getPriceModifier "market_crash" p (Num.fin progress)) ∧
  (recovery_speed p ≠ None →
   between 0.3 1 (getPriceModifier "flash_crash" p (Num.fin progress))).
Proof.
  intros (Hi & _ & _ & Hr) Hp. unfold getPriceModifier, between.
  change (scenarioOf "bull_market") with (Some bull_market).
  change (scenarioOf "bear_market") with (Some bear_market).
  change (scenarioOf "market_crash") with (Some market_crash).
  change (scenarioOf "flash_crash") with (Some flash_crash).
  cbv zeta.
  destruct (orDefault_within (intensity p) 0.5 1 Hi ltac:(lra)) as (i & -> & Hir).
  assert (Hi01 : 0 <= i <= 1) by lra.
  pose proof (unit_product i progress Hi01 Hp) as Hip.
  split; [|split; [|split]].
  - num_cbv. eexists. split; [reflexivity|]. lra.
  - num_cbv. eexists. split; [reflexivity|]. lra.
  - destruct (crashPoint_bounds progress Hp) as (c & -> & Hc).
    destruct (orDefault_within (recovery_speed p) 0.3 1 Hr ltac:(lra))
      as (rs & -> & Hrs).
    num_cbv. eexists. split; [reflexivity|].
    pose proof (exp_pos (-5 * c)) as He0.
    pose proof (exp_nonpos_le_1 (-5 * c) ltac:(lra)) as He1.
    set (e := exp (-5 * c)) in *.
    assert (Hrp : 0 <= Rmax 0 ((progress - 0.2) / 0.8) <= 1).
    { split; [apply Rmax_l|apply Rmax_lub; lra]. }
    set (rp := Rmax 0 ((progress - 0.2) / 0.8)) in *.
    pose proof (unit_product i (1 - e) Hi01 ltac:(lra)) as Hce.
    set (ce := i * (1 - e)) in *.
    pose proof (unit_product rs rp ltac:(lra) Hrp) as Hre.
    set (re := rs * rp) in *.
    pose proof (unit_product ce (1 - re) Hce ltac:(lra)).
    split; nra.
  - intros Hsupplied.
    destruct (recovery_speed p) as [rs|] eqn:Ers; [|contradiction].
    specialize (Hr rs eq_refl).
    unfold flashCrashPhase, flashCrashRecovery, Num.ltb, Num.ofField. num_cbv.
    destruct (Rlt_dec progress 0.1); destruct (Rlt_dec progress 0.3); try lra;
      eexists; (split; [reflexivity|]).
    + lra.
    + pose proof (unit_product i ((progress - 0.1) / 0.2) Hi01 ltac:(lra)). lra.
    + assert (Hrc : 0 <= (progress - 0.3) / 0.7 <= 1) by lra.
      pose proof (unit_product rs _ Hr Hrc) as Hrr.
      pose proof (unit_product i _ Hi01 Hrr) as Hirr.
      pose proof (unit_product i (1 - rs * ((progress - 0.3) / 0.7)) Hi01
                    ltac:(lra)).
      lra.
Qed.

Lemma trend_directions_witness :
  parametersInRange (intensityOnly 0.5) ∧
  between 1 2 (getPriceModifier "bull_market" (intensityOnly 0.5) (Num.fin 1)).
Proof.
  assert (Hrange : parametersInRange (intensityOnly 0.5)).
  { unfold parametersInRange, within, intensityOnly. simpl.
    repeat apply conj; intros y Hy; try discriminate.
    injection Hy as <-. lra. }
  split; [exact Hrange|].
  exact (proj1 (trend_directions (intensityOnly 0.5) 1 Hrange ltac:(lra))).
Defined.

End ScenariosMore.

(** ** More on the orchestrator *)

Section SimulationMore.

Import TimeControlService SimulationService ClockSpec.

Local Open Scope Z_scope.

Lemma initialize_cases now now' params (store : Store) :
  let id := TimeControlInitParamsDto.simulationId params in
  (∃ e, initialize now now' params store = (Throw e, store)) ∨
  (∃ t0 s,
     initialize now now' params store
     = (Ok (TimeControlConfigDto.mk t0 t0 s TimeControlService.running),
        <[id := TimeControlData.mk id t0 t0 s TimeControlService.running now']>
          store) ∧
     (1 # 10 <= s)%Q ∧ (s <= 1000)%Q).
Proof.
  intros id. unfold initialize.
  destruct (validateTimeScale _) as [s|e] eqn:Hv; [|left; eauto].
  apply validateTimeScale_range in Hv.
  destruct (match TimeControlInitParamsDto.startTime params with
            | Some d => d | None => JS.TimeValue now end) as [|t0];
    [left; eauto|].
  right. exists t0, s. split; [reflexivity|exact Hv].
Qed.



(** X26: a failed [initializeSimulation] can leave a clock behind.
    The clock is created before the data source is checked, and
    nothing removes it: when the failure comes from the clock itself
    (bad time scale, start date that does not parse) the store is
    unchanged, but when it comes from the data source (bad period, no
    tokens, invalid scenario type) or from an unsupported simulation
    type, the store has gained a running clock under the identifier
    that was generated and never returned. *)
Theorem failed_initialization_leaves_clock
    now0 now1 now2 now3 rnd k params (store : Store) err store' :
  initializeSimulation now0 now1 now2 now3 rnd k params store = (inl err, store') →
  let id := generateSimulationId now0 (rnd k) in
  match err with
  | ClockError _ => store' = store
  | HistoricalError _ | ScenarioError _ | UnsupportedSimulationType _ =>
      ∃ d, store' = <[id := d]> store ∧
           TimeControlData.simulationId d = id ∧
           TimeControlData.status d = TimeControlService.running
  end.
Proof.
  intros Hinit id. unfold initializeSimulation in Hinit. fold id in Hinit.
  destruct (initialize_cases now1 now2
              (TimeControlInitParamsDto.mk id
                 (SimulationInitParamsDto.startTime params)
                 (Some (timeScaleOrDefault (SimulationInitParamsDto.timeScale params))))
              store) as [[e He]|(t0 & s & He & Hlo & Hhi)];
    rewrite He in Hinit.
  - now injection Hinit as <- <-.
  - cbn [TimeControlInitParamsDto.simulationId] in Hinit.
    destruct (initializeDataSource params id) as [e|source] eqn:Hsrc;
      [|discriminate].
    injection Hinit as <- <-.
    assert (Hnot : ∀ c, e ≠ ClockError c).
    { intros c ->. unfold initializeDataSource in Hsrc.
      repeat (match type of Hsrc with
              | context [if ?b then _ else _] => destruct b
              | context [match ?x with _ => _ end] => destruct x
              end; try discriminate). }
    destruct e as [c| | |]; [now destruct (Hnot c)| | |];
      eexists; (split; [reflexivity|]); split; reflexivity.
Qed.

(** An unsupported simulation type: the call throws, the clock stays. *)
Lemma failed_initialization_leaves_clock_witness :
  let params :=
    SimulationInitParamsDto.mk "replay" "agent_7" ["ETH"] None None None None
                               None None in
  let id := generateSimulationId 1700000000000 0.5%R in
  ∃ store',
    initializeSimulation 1700000000000 1700000000001 1700000000002 1700000000003
                         (λ _, 0.5%R) 0 params ∅
    = (inl (UnsupportedSimulationType "replay"), store') ∧
    ∃ d, store' = <[id := d]> ∅ ∧
         TimeControlData.status d = TimeControlService.running.
Proof.
  intros params id. eexists. split; [reflexivity|].
  destruct (failed_initialization_leaves_clock
              1700000000000 1700000000001 1700000000002 1700000000003
              (λ _, 0.5%R) 0%nat params ∅ _ _ eq_refl)
    as (d & Hstore & _ & Hrun).
  exists d. split; [exact Hstore|exact Hrun].
Defined.



End SimulationMore.

(** ** The learning progress store *)

Section Learning.

Import LearningProgressService LearningSpec.

Local Open Scope R_scope.

Lemma recordLearningSnapshot_store now now' random params (store : Store) :
  let agentId := LearningSnapshotDto.agentId params in
  let before := match store !! agentId with
                | Some data => data
                | None => emptyData
                end in
  let snapshot :=
    LearningSnapshot.mk (generateSnapshotId now random) now'
      (LearningSnapshotDto.episodeNumber params) (metricsOf params) in
  snd (recordLearningSnapshot now now' random params store)
  = <[agentId :=
        AgentLearningProgressData.mk
          (AgentLearningProgressData.snapshots before ++ [snapshot])
          (updateLearningCurve (AgentLearningProgressData.learningCurve before)
                               snapshot)]> store.
Proof.
  intros agentId before snapshot.
  unfold recordLearningSnapshot, getOrCreateLearningProgressData.
  fold agentId. unfold before.
  destruct (store !! agentId) as [data|]; simpl; [reflexivity|].
  apply insert_insert_eq.
Qed.

(** X28: recording keeps every learning curve aligned with its
    snapshots.  If each agent's six curve lists have one entry per
    snapshot, they still do after [recordLearningSnapshot]; the agent
    recorded for (created if unknown) has exactly one snapshot more,
    the last one, stamped with the call's identifier and time, and no
    other agent's data changes. *)
Theorem recording_keeps_curves_aligned now now' random params (store : Store) :
  aligned store →
  let agentId := LearningSnapshotDto.agentId params in
  let store' := snd (recordLearningSnapshot now now' random params store) in
  aligned store' ∧
  (∀ other, other ≠ agentId → store' !! other = store !! other) ∧
  ∃ data' snapshot,
    store' !! agentId = Some data' ∧
    AgentLearningProgressData.snapshots data'
    = match store !! agentId with
      | Some data => AgentLearningProgressData.snapshots data
      | None => []
      end ++ [snapshot] ∧
    LearningSnapshot.snapshotId snapshot = generateSnapshotId now random ∧
    LearningSnapshot.timestamp snapshot = now' ∧
    LearningSnapshot.episodeNumber snapshot
    = LearningSnapshotDto.episodeNumber params.
Proof.
  intros Hal agentId store'. unfold store'.
  rewrite recordLearningSnapshot_store. cbv zeta. fold agentId.
  set (before := match store !! agentId with Some d => d | None => emptyData end).
  assert (Hbefore : curveLength
            (length (AgentLearningProgressData.snapshots before))
            (AgentLearningProgressData.learningCurve before)).
  { unfold before. destruct (store !! agentId) as [d|] eqn:E.
    - exact (Hal agentId d E).
    - repeat split. }
  split; [|split].
  - intros id data Hlook.
    destruct (decide (id = agentId)) as [->|Hne].
    + rewrite lookup_insert_eq in Hlook. injection Hlook as <-.
      destruct Hbefore as (H1 & H2 & H3 & H4 & H5 & H6).
      unfold curveLength, updateLearningCurve. simpl.
      rewrite !length_app. simpl. rewrite H1, H2, H3, H4, H5, H6.
      repeat split; reflexivity.
    + rewrite lookup_insert_ne in Hlook by congruence. exact (Hal id data Hlook).
  - intros other Hne. now apply lookup_insert_ne.
  - eexists _, (LearningSnapshot.mk (generateSnapshotId now random) now'
                  (LearningSnapshotDto.episodeNumber params) (metricsOf params)).
    split; [apply lookup_insert_eq|].
    cbn [AgentLearningProgressData.snapshots LearningSnapshot.snapshotId
         LearningSnapshot.timestamp LearningSnapshot.episodeNumber].
    split; [|repeat split; reflexivity].
    unfold before. now destruct (store !! agentId).
Qed.

Lemma recording_keeps_curves_aligned_witness :
  let params := LearningSnapshotDto.mk "agent_7" 1 0.5 0.1 0.9 0.4 0.3 0.01 None in
  aligned ∅ ∧
  aligned (snd (recordLearningSnapshot 10 11 0.5 params ∅)).
Proof.
  intros params.
  assert (H0 : aligned ∅) by (intros id d Hd; discriminate).
  split; [exact H0|].
  exact (proj1 (recording_keeps_curves_aligned 10 11 0.5 params ∅ H0)).
Defined.

Lemma recordAll_curve agentId calls : ∀ (store : Store) data,
  store !! agentId = Some data →
  Forall (λ call : Call, LearningSnapshotDto.agentId (snd call) = agentId) calls →
  ∃ data',
    recordAll calls store !! agentId = Some data' ∧
    let curve := AgentLearningProgressData.learningCurve data in
    let curve' := AgentLearningProgressData.learningCurve data' in
    LearningCurve.episodes curve'
    = LearningCurve.episodes curve
      ++ map (λ call : Call, LearningSnapshotDto.episodeNumber (snd call)) calls ∧
    LearningCurve.rewards curve'
    = LearningCurve.rewards curve ++ map (recorded "rewardMean") calls ∧
    LearningCurve.losses curve'
    = LearningCurve.losses curve ++ map (recorded "lossValue") calls ∧
    LearningCurve.accuracies curve'
    = LearningCurve.accuracies curve ++ map (recorded "accuracyValue") calls ∧
    LearningCurve.explorationRates curve'
    = LearningCurve.explorationRates curve
      ++ map (recorded "explorationRate") calls ∧
    LearningCurve.learningRates curve'
    = LearningCurve.learningRates curve ++ map (recorded "learningRate") calls.
Proof.
  induction calls as [|[[[now now'] random] params] rest IH];
    intros store data Hd Hall.
  - exists data. split; [exact Hd|]. simpl. now rewrite !app_nil_r.
  - apply Forall_cons in Hall as [Hid Hrest]. simpl in Hid.
    cbn [recordAll]. rewrite recordLearningSnapshot_store. cbv zeta.
    rewrite Hid, Hd.
    edestruct IH as (data' & Hlook & He & Hr & Hl & Ha & Hx & Hlr);
      [apply lookup_insert_eq|exact Hrest|].
    exists data'. split; [exact Hlook|]. cbv zeta in *.
    rewrite He, Hr, Hl, Ha, Hx, Hlr. unfold updateLearningCurve. simpl.
    rewrite <- !app_assoc. repeat split; reflexivity.
Qed.

(** X29: what is recorded is what the curve returns.  For an agent the
    store does not know, [getAgentLearningCurve] throws 'Agent not
    found'.  After any non-empty series of recordings for that agent,
    it returns the episode numbers in the order recorded and, for each
    of the five plotted metrics, the recorded values in that order,
    where a custom metric of the same name replaces the named one. *)
Theorem learning_curve_round_trip agentId calls (store : Store) :
  store !! agentId = None →
  Forall (λ call : Call, LearningSnapshotDto.agentId (snd call) = agentId) calls →
  getAgentLearningCurve agentId store = inl (AgentNotFound agentId) ∧
  (calls ≠ [] →
   getAgentLearningCurve agentId (recordAll calls store)
   = inr (LearningCurveDto.mk agentId
            (LearningCurve.mk
               (map (λ call : Call, LearningSnapshotDto.episodeNumber (snd call)) calls)
               (map (recorded "rewardMean") calls)
               (map (recorded "lossValue") calls)
               (map (recorded "accuracyValue") calls)
               (map (recorded "explorationRate") calls)
               (map (recorded "learningRate") calls)))) ∧
  (∀ call custom v,
     LearningSnapshotDto.customMetrics (snd call) = Some custom →
     custom !! "rewardMean" = Some v →
     recorded "rewardMean" call = v) ∧
  (∀ call,
     LearningSnapshotDto.customMetrics (snd call) = None →
     recorded "rewardMean" call = Number (LearningSnapshotDto.rewardMean (snd call))).
Proof.
  intros Hnone Hall. split; [|split; [|split]].
  - unfold getAgentLearningCurve, getLearningProgressData. now rewrite Hnone.
  - intros Hne. destruct calls as [|[[[now now'] random] params] rest];
      [contradiction|].
    apply Forall_cons in Hall as [Hid Hrest]. simpl in Hid.
    cbn [recordAll]. rewrite recordLearningSnapshot_store. cbv zeta.
    rewrite Hid, Hnone.
    edestruct (recordAll_curve agentId rest) as (data' & Hlook & He & Hr & Hl & Ha & Hx & Hlr);
      [apply lookup_insert_eq|exact Hrest|].
    unfold getAgentLearningCurve, getLearningProgressData. rewrite Hlook.
    cbv zeta in *. simpl in He, Hr, Hl, Ha, Hx, Hlr.
    destruct data' as [snaps [e r l a x lr]]. simpl in *. subst.
    reflexivity.
  - intros call custom v Hc Hv. unfold recorded, metric, metricsOf.
    rewrite Hc. erewrite lookup_union_Some_l by exact Hv. reflexivity.
  - intros call Hc. unfold recorded, metric, metricsOf. rewrite Hc. reflexivity.
Qed.

Lemma learning_curve_round_trip_witness :
  let first := LearningSnapshotDto.mk "agent_7" 1 0.5 0.1 0.9 0.4 0.3 0.01 None in
  let second := LearningSnapshotDto.mk "agent_7" 2 0.6 0.1 0.8 0.5 0.3 0.01
                  (Some {["rewardMean" := Null]}) in
  let calls : list Call :=
    [(10%Z, 11%Z, 0.5, first); (20%Z, 21%Z, 0.25, second)] in
  ∃ dto,
    getAgentLearningCurve "agent_7" (recordAll calls ∅) = inr dto ∧
    LearningCurve.episodes (LearningCurveDto.curve dto) = [1; 2] ∧
    LearningCurve.rewards (LearningCurveDto.curve dto) = [Number 0.5; Null].
Proof.
  intros first second calls.
  assert (Hall : Forall (λ call : Call,
                   LearningSnapshotDto.agentId (snd call) = "agent_7"%string) calls).
  { repeat constructor. }
  destruct (learning_curve_round_trip "agent_7" calls ∅ (lookup_empty _) Hall)
    as (_ & Hcurve & _).
  eexists. split; [apply Hcurve; discriminate|]. split; reflexivity.
Defined.




End Learning.
